(** * NCBI GenBank retriever (s29011_2025-2.py): shallow embedding and properties

    The script searches the NCBI nucleotide database for a taxon, pages through
    the result set in batches of at most 500 records, writes a CSV report and a
    length chart.  The remote service (Bio.Entrez + SeqIO) is an oracle with a
    state of its own; every method is a function from the state of the remote
    to the events it performs, its outcome and the new state of the remote.
    The file system and the plotting library are an oracle too: it says which
    exception, if any, the writing of a file raises. *)

From Stdlib Require Import ZArith String Ascii List Lia DecimalString DecimalPos Sorted Permutation.
From stdpp Require Import gmap strings list.
From Equations Require Import Equations.
Import ListNotations.
Open Scope Z_scope.

(** ** Python strings and integers *)

Module Py.

(** Strings are byte strings and the model covers ASCII text: what
    [str.strip] and [int] do with whitespace and digits outside ASCII is not
    modelled.

    [str.isspace] on the ASCII range: TAB..CR, FS..US and the space. *)
Definition is_space (c : ascii) : bool :=
  let n := nat_of_ascii c in
  ((9 <=? n)%nat && (n <=? 13)%nat) || ((28 <=? n)%nat && (n <=? 32)%nat).

Fixpoint lstrip (s : string) : string :=
  match s with
  | String c rest => if is_space c then lstrip rest else s
  | EmptyString => EmptyString
  end.

(** [rstrip] drops the trailing run of whitespace. *)
Fixpoint rstrip (s : string) : string :=
  match s with
  | EmptyString => EmptyString
  | String c rest =>
      match rstrip rest with
      | EmptyString => if is_space c then EmptyString else String c EmptyString
      | rest' => String c rest'
      end
  end.

(** [s.strip()] *)
Definition strip (s : string) : string := rstrip (lstrip s).

Definition digit_of (c : ascii) : option Z :=
  let n := nat_of_ascii c in
  if ((48 <=? n)%nat && (n <=? 57)%nat)%bool then Some (Z.of_nat (n - 48)) else None.

(** The digit part of a decimal literal accepted by [int(str)]: digits, with
    single underscores allowed between two digits. *)
Fixpoint parse_digits (s : string) (after_digit : bool) (acc : Z) : option Z :=
  match s with
  | EmptyString => if after_digit then Some acc else None
  | String c rest =>
      match digit_of c with
      | Some d => parse_digits rest true (10 * acc + d)
      | None =>
          if (Ascii.eqb c "_" && after_digit)%bool
          then parse_digits rest false acc
          else None
      end
  end.

(** The integer a decimal literal denotes: an optional sign, then the digits. *)
Definition literal (t : string) : option Z :=
  match t with
  | String "-" rest => Z.opp <$> parse_digits rest false 0
  | String "+" rest => parse_digits rest false 0
  | t => parse_digits t false 0
  end.

(** [Py_ISSPACE], the whitespace [int] skips around an ASCII literal:
    TAB..CR and the space, but not FS..US, which [str.strip] removes. *)
Definition is_c_space (c : ascii) : bool :=
  let n := nat_of_ascii c in
  ((9 <=? n)%nat && (n <=? 13)%nat) || (n =? 32)%nat.

Fixpoint lskip (s : string) : string :=
  match s with
  | String c rest => if is_c_space c then lskip rest else s
  | EmptyString => EmptyString
  end.

Fixpoint rskip (s : string) : string :=
  match s with
  | EmptyString => EmptyString
  | String c rest =>
      match rskip rest with
      | EmptyString => if is_c_space c then EmptyString else String c EmptyString
      | rest' => String c rest'
      end
  end.

(** The number of decimal digits in a string. *)
Fixpoint count_digits (s : string) : nat :=
  match s with
  | EmptyString => 0%nat
  | String c rest =>
      match digit_of c with
      | Some _ => S (count_digits rest)
      | None => count_digits rest
      end
  end.

(** [sys.int_info.default_max_str_digits]: CPython refuses to convert a
    decimal string of more digits. *)
Definition max_str_digits : nat := 4300.

(** [int(s)] for an ASCII string: [None] stands for ValueError, raised for
    what is no literal and for a literal of more than 4300 digits. *)
Definition int (s : string) : option Z :=
  let t := rskip (lskip s) in
  if (max_str_digits <? count_digits t)%nat then None else literal t.

(** [str(n)] for an integer, as an f-string formats it. *)
Definition str (n : Z) : string := NilZero.string_of_int (Z.to_int n).

End Py.

(** A line of whitespace only. *)
Definition blank (s : string) : Prop :=
  forall c, In c (list_ascii_of_string s) -> Py.is_space c = true.

(** ** Data *)

(** What the script reads of a [SeqIO.SeqRecord]. *)
Record SeqRecord := mkSeqRecord {
  id : string;
  seq : string;
  description : string
}.

(** [len(r.seq)] *)
Definition seq_len (r : SeqRecord) : Z := Z.of_nat (String.length (seq r)).

(** Exceptions that reach the script. [EntrezError] stands for whatever the
    Entrez or SeqIO layer raises (network, HTTP, parse), [OSError] for what
    [open] and the writing of a file raise.  [ValueError] is carried
    without its message. *)
Inductive exn :=
| RuntimeError (msg : string)
| KeyError (key : string)
| ValueError
| EntrezError (msg : string)
| OSError (msg : string).

Inductive result (A : Type) :=
| Ok (a : A)
| Raise (e : exn).
Arguments Ok {A} a.
Arguments Raise {A} e.

(** The keyword arguments of [Entrez.efetch] that vary
    (db, rettype and retmode are the constants nucleotide, gb, text). *)
Record efetch_request := mkEfetch {
  retstart : Z;
  retmax : Z;
  req_webenv : string;
  req_query_key : string
}.

(** Rows handed to [csv.writer.writerow]; non-string fields are written
    through [str]. *)
Definition csv_row := list string.

(** The data of the saved figure: the two plotted series, the labels, the
    title and the resolution.  Figure size, marker and tick style are left to
    matplotlib and not recorded. *)
Record chart := mkChart {
  chart_x : list string;
  chart_y : list Z;
  chart_xlabel : string;
  chart_ylabel : string;
  chart_title : string;
  chart_dpi : Z
}.

Inductive file_content :=
| CsvFile (rows : list csv_row)
| PngFile (c : chart).

(** [NCBIRetriever]: the attributes set by [__init__]. *)
Record NCBIRetriever := mkRetriever {
  webenv : option string;
  query_key : option string;
  count : Z
}.

(** [sorted(l, key=key, reverse=True)].  The builtin is a stable sort and
    [reverse=True] keeps the original order of elements with equal keys; it is
    realised here as a stable insertion sort into descending key order. *)
Fixpoint insert_reverse {A} (key : A -> Z) (x : A) (l : list A) : list A :=
  match l with
  | [] => [x]
  | y :: l' => if key x <? key y then y :: insert_reverse key x l' else x :: l
  end.

Fixpoint sorted_reverse {A} (key : A -> Z) (l : list A) : list A :=
  match l with
  | [] => []
  | x :: l' => insert_reverse key x (sorted_reverse key l')
  end.

(** What the user types at the six prompts of [main]. *)
Record user_input := mkInput {
  typed_email : string;
  typed_api_key : string;
  typed_taxid : string;
  typed_min_len : string;
  typed_max_len : string;
  typed_max_records : string
}.

(** How [main] ends: it returns, calls [sys.exit], or an exception escapes. *)
Inductive termination :=
| Returned
| SystemExit (code : Z)
| Uncaught (e : exn).

(** The exit status of the process. *)
Definition exit_status (t : termination) : Z :=
  match t with
  | Returned => 0
  | SystemExit code => code
  | Uncaught _ => 1
  end.

(** ** The retriever against an arbitrary remote service *)

Section Retrieval.

(** The type of the [delay] argument of [time.sleep] and the default 0.34. *)
Variable Delay : Type.
Variable default_delay : Delay.

(** The remote service.  [esearch_read] is [Entrez.esearch] followed by
    [Entrez.read]: it raises or returns the parsed dictionary.
    [efetch_parse] is [Entrez.efetch] streamed through [SeqIO.parse]: the
    records it produces and, when the call or the parse fails, the exception
    raised after them. *)
Variable Remote : Type.
Variable esearch_read : Remote -> string -> Remote * result (gmap string string).
Variable efetch_parse : Remote -> efetch_request -> Remote * (list SeqRecord * option exn).

(** The file system and the plotting library: the exception, if any, that
    writing this content to this path raises ([open] refusing the path, the
    disk filling up, matplotlib refusing the figure). *)
Variable write_error : string -> file_content -> option exn.

(** What a run does, in order.  [WriteFile] is a file written in full. *)
Inductive event :=
| Configure (email api_key : string)
| Esearch (term : string)
| Efetch (req : efetch_request)
| Yield (r : SeqRecord)
| Sleep (d : Delay)
| Prompt (msg : string)
| Print (line : string)
| WriteFile (path : string) (c : file_content).

Record run (A : Type) := Run {
  events : list event;
  value : A;
  remote_after : Remote
}.
Arguments Run {A} events value remote_after.
Arguments events {A} r.
Arguments value {A} r.
Arguments remote_after {A} r.

(** [__init__]: a retriever with no session and a zero count. *)
Definition init (email api_key : string) : list event * NCBIRetriever :=
  ([Configure email api_key],
   {| webenv := None; query_key := None; count := 0 |}).

Definition not_None {A} (o : option A) : bool :=
  match o with Some _ => true | None => false end.

(** Lines 27-31 of [search]: the Entrez query. *)
Definition build_query (taxid : string) (min_len max_len : option Z) : string :=
  let query := "txid" +:+ taxid +:+ "[Organism]" in
  if not_None min_len || not_None max_len then
    let _min := match min_len with Some m => m | None => 1 end in
    let _max := match max_len with Some m => m | None => 1000000000 end in
    query +:+ " AND " +:+ Py.str _min +:+ ":" +:+ Py.str _max +:+ "[SLEN]"
  else query.

(** Lines 36-39 of [search]: the three subscripts, each raising KeyError on a
    missing key, with the attributes assigned one after the other. *)
Definition store_session (self : NCBIRetriever) (res : gmap string string)
  : NCBIRetriever * result Z :=
  match res !! "WebEnv" with
  | None => (self, Raise (KeyError "WebEnv"))
  | Some we =>
      let self1 := {| webenv := Some we; query_key := query_key self; count := count self |} in
      match res !! "QueryKey" with
      | None => (self1, Raise (KeyError "QueryKey"))
      | Some qk =>
          let self2 := {| webenv := Some we; query_key := Some qk; count := count self |} in
          match res !! "Count" with
          | None => (self2, Raise (KeyError "Count"))
          | Some c =>
              match Py.int c with
              | None => (self2, Raise ValueError)
              | Some n =>
                  ({| webenv := Some we; query_key := Some qk; count := n |}, Ok n)
              end
          end
      end
  end.

Definition search (self : NCBIRetriever) (taxid : string) (min_len max_len : option Z)
  (R : Remote) : run (NCBIRetriever * result Z) :=
  let query := build_query taxid min_len max_len in
  let '(R1, reply) := esearch_read R query in
  match reply with
  | Raise e => Run [Esearch query] (self, Raise e) R1
  | Ok res => Run [Esearch query] (store_session self res) R1
  end.

(** [_fetch_batch], driven to exhaustion: the records it yields and the
    exception it ends with, if any. *)
Definition _fetch_batch (self : NCBIRetriever) (start size : Z) (R : Remote)
  : run (list SeqRecord * option exn) :=
  match webenv self, query_key self with
  | Some we, Some qk =>
      let req := mkEfetch start size we qk in
      let '(R1, produced) := efetch_parse R req in
      Run [Efetch req] produced R1
  | _, _ => Run [] ([], Some (RuntimeError "error")) R
  end.

(** The [while remaining > 0] loop of [fetch_all], driven to exhaustion. *)
Equations? fetch_loop (self : NCBIRetriever) (delay : Delay) (remaining start : Z)
  (R : Remote) : run (option exn) by wf (Z.to_nat remaining) lt :=
  fetch_loop self delay remaining start R with Z_lt_dec 0 remaining := {
    | right _ => Run [] None R
    | left _ =>
        let batch := Z.min remaining 500 in
        let b := _fetch_batch self start batch R in
        match snd (value b) with
        | Some e => Run (events b ++ map Yield (fst (value b))) (Some e) (remote_after b)
        | None =>
            let rest := fetch_loop self delay (remaining - batch) (start + batch)
                          (remote_after b) in
            Run (events b ++ map Yield (fst (value b)) ++ Sleep delay :: events rest)
                (value rest) (remote_after rest)
        end }.
Proof. lia. Qed.

(** Line 57 of [fetch_all]: the initial value of [remaining]. *)
Definition initial_remaining (self : NCBIRetriever) (limit : option Z) : Z :=
  match limit with
  | None => count self
  | Some l => Z.min l (count self)
  end.

(** [fetch_all(limit, delay)] *)
Definition fetch_all (self : NCBIRetriever) (limit : option Z) (delay : Delay)
  (R : Remote) : run (option exn) :=
  let remaining := initial_remaining self limit in
  let start := 0 in
  fetch_loop self delay remaining start R.


(** The records a consumer such as [list(...)] receives from a run. *)
Fixpoint yielded (evs : list event) : list SeqRecord :=
  match evs with
  | [] => []
  | Yield r :: evs' => r :: yielded evs'
  | _ :: evs' => yielded evs'
  end.

(** [write_csv]: the header row, then one row per record. *)
Definition csv_header : csv_row := ["Accession"; "Length"; "Description"].

Definition csv_record_row (r : SeqRecord) : csv_row :=
  [id r; Py.str (seq_len r); description r].

Definition csv_rows (records : list SeqRecord) : list csv_row :=
  csv_header :: map csv_record_row records.

Definition write_csv (records : list SeqRecord) (path : string)
  : list event * option exn :=
  match write_error path (CsvFile (csv_rows records)) with
  | None => ([WriteFile path (CsvFile (csv_rows records))], None)
  | Some e => ([], Some e)
  end.

(** [plot_lengths]: the records sorted by descending length, then plotted. *)
Definition plot_order (records : list SeqRecord) : list SeqRecord :=
  sorted_reverse seq_len records.

Definition length_chart (records : list SeqRecord) : chart :=
  let sorted_recs := plot_order records in
  let accs := map id sorted_recs in
  let lengths := map seq_len sorted_recs in
  {| chart_x := accs; chart_y := lengths;
     chart_xlabel := "GenBank accession";
     chart_ylabel := "Sequence length (bp)";
     chart_title := "Sequence lengths sorted descending";
     chart_dpi := 300 |}.

Definition plot_lengths (records : list SeqRecord) (path : string)
  : list event * option exn :=
  match write_error path (PngFile (length_chart records)) with
  | None => ([WriteFile path (PngFile (length_chart records))], None)
  | Some e => ([], Some e)
  end.

(** [prompt_int] on the line the user typed. *)
Definition prompt_int (msg typed : string) : list event * option Z :=
  let val := Py.strip typed in
  if String.eqb val EmptyString then ([Prompt msg], None)
  else match Py.int val with
       | Some n => ([Prompt msg], Some n)
       | None => ([Prompt msg; Print "Wartość musi być liczbą całkowitą"], None)
       end.

Definition newline : string := String (ascii_of_nat 10) EmptyString.

(** [main], with the reading of the clock given as [timestamp]. *)
Definition main (inp : user_input) (timestamp : string) (R : Remote) : run termination :=
  let email := Py.strip (typed_email inp) in
  let api_key := Py.strip (typed_api_key inp) in
  let taxid := Py.strip (typed_taxid inp) in
  let '(ev_min, min_len) := prompt_int "Minimal sequence length " (typed_min_len inp) in
  let '(ev_max, max_len) := prompt_int "Maximal sequence length " (typed_max_len inp) in
  let '(ev_rec, max_records) := prompt_int "Maximum records to download " (typed_max_records inp) in
  let prefix := "taxid_" +:+ taxid +:+ "_" +:+ timestamp in
  let csv_file := prefix +:+ ".csv" in
  let png_file := prefix +:+ ".png" in
  let '(ev_init, retriever) := init email api_key in
  let s := search retriever taxid min_len max_len R in
  let before := [Prompt "Enter your email address for NCBI: ";
                 Prompt "Enter your NCBI API key: ";
                 Prompt "Enter taxonomic ID (taxid) of the organism: "]
                ++ ev_min ++ ev_max ++ ev_rec ++ ev_init ++ events s in
  match snd (value s) with
  | Raise e => Run before (Uncaught e) (remote_after s)
  | Ok total =>
      if total =? 0 then
        Run (before ++ [Print "Not found"]) (SystemExit 0) (remote_after s)
      else
        let f := fetch_all (fst (value s)) max_records default_delay (remote_after s) in
        match value f with
        | Some e => Run (before ++ events f) (Uncaught e) (remote_after f)
        | None =>
            let records := yielded (events f) in
            match records with
            | [] => Run (before ++ events f ++ [Print "Download failed"])
                        (SystemExit 1) (remote_after f)
            | _ :: _ =>
                let c := write_csv records csv_file in
                match snd c with
                | Some e => Run (before ++ events f ++ fst c) (Uncaught e) (remote_after f)
                | None =>
                    let p := plot_lengths records png_file in
                    match snd p with
                    | Some e =>
                        Run (before ++ events f
                             ++ fst c
                             ++ [Print ("CSV report saved -> " +:+ csv_file)]
                             ++ fst p)
                            (Uncaught e) (remote_after f)
                    | None =>
                        Run (before ++ events f
                             ++ fst c
                             ++ [Print ("CSV report saved -> " +:+ csv_file)]
                             ++ fst p
                             ++ [Print ("Length plot saved -> " +:+ png_file +:+ newline)])
                            Returned (remote_after f)
                    end
                end
            end
        end
  end.

(** The parts of a run of [main], named: the search it performs, the
    retrieval that follows it, what happens up to and including the search,
    and the prefix of the two output paths. *)
Definition main_search (inp : user_input) (R : Remote) : run (NCBIRetriever * result Z) :=
  search (snd (init (Py.strip (typed_email inp)) (Py.strip (typed_api_key inp))))
    (Py.strip (typed_taxid inp))
    (snd (prompt_int "Minimal sequence length " (typed_min_len inp)))
    (snd (prompt_int "Maximal sequence length " (typed_max_len inp))) R.

Definition main_fetch (inp : user_input) (R : Remote) : run (option exn) :=
  let s := main_search inp R in
  fetch_all (fst (value s))
    (snd (prompt_int "Maximum records to download " (typed_max_records inp)))
    default_delay (remote_after s).

Definition main_prelude (inp : user_input) (R : Remote) : list event :=
  [Prompt "Enter your email address for NCBI: ";
   Prompt "Enter your NCBI API key: ";
   Prompt "Enter taxonomic ID (taxid) of the organism: "]
  ++ fst (prompt_int "Minimal sequence length " (typed_min_len inp))
  ++ fst (prompt_int "Maximal sequence length " (typed_max_len inp))
  ++ fst (prompt_int "Maximum records to download " (typed_max_records inp))
  ++ fst (init (Py.strip (typed_email inp)) (Py.strip (typed_api_key inp)))
  ++ events (main_search inp R).

Definition output_prefix (inp : user_input) (timestamp : string) : string :=
  "taxid_" +:+ Py.strip (typed_taxid inp) +:+ "_" +:+ timestamp.

End Retrieval.

Arguments Run {Delay Remote A} events value remote_after.
Arguments events {Delay Remote A} r.
Arguments value {Delay Remote A} r.
Arguments remote_after {Delay Remote A} r.
Arguments Efetch {Delay} req.
Arguments Esearch {Delay} term.
Arguments Yield {Delay} r.
Arguments Sleep {Delay} d.
Arguments Prompt {Delay} msg.
Arguments Print {Delay} line.
Arguments Configure {Delay} email api_key.
Arguments WriteFile {Delay} path c.
Arguments init {Delay} email api_key.
Arguments search {Delay Remote} esearch_read self taxid min_len max_len R.
Arguments _fetch_batch {Delay Remote} efetch_parse self start size R.
Arguments fetch_loop {Delay Remote} efetch_parse self delay remaining start R.
Arguments fetch_all {Delay Remote} efetch_parse self limit delay R.
Arguments yielded {Delay} evs.
Arguments write_csv {Delay} write_error records path.
Arguments plot_lengths {Delay} write_error records path.
Arguments prompt_int {Delay} msg typed.
Arguments main {Delay} default_delay {Remote} esearch_read efetch_parse write_error inp timestamp R.
Arguments main_search {Delay Remote} esearch_read inp R.
Arguments main_fetch {Delay} default_delay {Remote} esearch_read efetch_parse inp R.
Arguments main_prelude {Delay Remote} esearch_read inp R.

(** ** Reading a run *)

(** The batch windows requested from the remote, in order. *)
Fixpoint efetch_requests {Delay} (evs : list (event Delay)) : list efetch_request :=
  match evs with
  | [] => []
  | Efetch req :: evs' => req :: efetch_requests evs'
  | _ :: evs' => efetch_requests evs'
  end.

(** The paths of the files written, in order. *)
Fixpoint files_written {Delay} (evs : list (event Delay)) : list string :=
  match evs with
  | [] => []
  | WriteFile path _ :: evs' => path :: files_written evs'
  | _ :: evs' => files_written evs'
  end.

(** Pacing: a request is allowed only when a sleep has happened since the
    request before it ([rested] says whether one may be sent right away). *)
Fixpoint paced {Delay} (rested : bool) (evs : list (event Delay)) : bool :=
  match evs with
  | [] => true
  | Efetch _ :: evs' => rested && paced false evs'
  | Sleep _ :: evs' => paced true evs'
  | _ :: evs' => paced rested evs'
  end.

(** A window as the pair (offset, size). *)
Definition window (q : efetch_request) : Z * Z := (retstart q, retmax q).

(** The number of calls of [time.sleep]. *)
Fixpoint sleeps {Delay} (evs : list (event Delay)) : nat :=
  match evs with
  | [] => 0%nat
  | Sleep _ :: evs' => S (sleeps evs')
  | _ :: evs' => sleeps evs'
  end.

(** Consecutive windows: each starts where the one before it ends. *)
Fixpoint contiguous_from (start : Z) (reqs : list efetch_request) : Prop :=
  match reqs with
  | [] => True
  | req :: reqs' =>
      retstart req = start /\ contiguous_from (start + retmax req) reqs'
  end.

(** ceil(a / b) for b > 0, from floor division. *)
Definition ceil_div (a b : Z) : Z := - ((- a) / b).

(** The number of records yielded before the next request of a trace. *)
Fixpoint yields_before_request {Delay} (evs : list (event Delay)) : nat :=
  match evs with
  | [] => 0%nat
  | Efetch _ :: _ => 0%nat
  | Yield _ :: evs' => S (yields_before_request evs')
  | _ :: evs' => yields_before_request evs'
  end.

(** Each batch call of the trace yields exactly the requested number of
    records: every request is followed, up to the next request, by as many
    yielded records as its [retmax]. *)
Fixpoint served_in_full {Delay} (evs : list (event Delay)) : Prop :=
  match evs with
  | [] => True
  | Efetch req :: evs' =>
      yields_before_request evs' = Z.to_nat (retmax req) /\ served_in_full evs'
  | _ :: evs' => served_in_full evs'
  end.

(** The exception of line 43, which the specification calls
    NotInitializedError. *)
Definition NotInitializedError : exn := RuntimeError "error".

(** ** A concrete remote *)

Module Demo.

(** Delays in hundredths of a second. *)
Definition delay : Type := Z.
Definition default_delay : delay := 34.

(** The remote keeps the number of matching records and counts the requests
    it has served. *)
Record remote := mkRemote { matches : Z; served : nat }.

Definition reply (n : Z) : gmap string string :=
  {[ "Count" := Py.str n; "WebEnv" := "MCID_demo"; "QueryKey" := "1" ]}.

Definition esearch_read (R : remote) (term : string)
  : remote * result (gmap string string) :=
  (mkRemote (matches R) (S (served R)), Ok (reply (matches R))).

Definition record_at (i : Z) : SeqRecord :=
  mkSeqRecord ("ACC" +:+ Py.str i) "ACGT" "demo".

Definition efetch_parse (R : remote) (req : efetch_request)
  : remote * (list SeqRecord * option exn) :=
  (mkRemote (matches R) (S (served R)),
   (map (fun k => record_at (retstart req + Z.of_nat k))
        (List.seq 0 (Z.to_nat (retmax req))), None)).

(** A remote whose search answers lack the query key. *)
Definition esearch_no_key (R : remote) (term : string)
  : remote * result (gmap string string) :=
  (R, Ok (delete "QueryKey" (reply (matches R)))).

(** A remote whose search call raises. *)
Definition esearch_down (R : remote) (term : string)
  : remote * result (gmap string string) :=
  (R, Raise (EntrezError "HTTP Error 502")).

(** A retriever after a successful search that found [n] records. *)
Definition searched (n : Z) : NCBIRetriever :=
  {| webenv := Some "MCID_demo"; query_key := Some "1"; count := n |}.

Definition fresh : NCBIRetriever := snd (init (Delay := delay) "a@b.c" "key").

Definition R0 : remote := mkRemote 1200 0.

Definition input : user_input :=
  mkInput "a@b.c " "key" " 9606" "" "100" "3".

(** A file system on which every write succeeds. *)
Definition write_error (path : string) (c : file_content) : option exn := None.

(** A remote that holds [matches R] records and no more: a window is served
    as far as the records go. *)
Definition efetch_finite (R : remote) (req : efetch_request)
  : remote * (list SeqRecord * option exn) :=
  (mkRemote (matches R) (S (served R)),
   (map (fun k => record_at (retstart req + Z.of_nat k))
        (List.seq 0 (Z.to_nat (Z.min (retmax req) (matches R - retstart req)))),
    None)).

End Demo.

(** ** A remote that fails *)

Module Faulty.

(** The first request is served in full; every later one produces the
    first record of its window and then raises. *)
Definition efetch_parse (R : Demo.remote) (req : efetch_request)
  : Demo.remote * (list SeqRecord * option exn) :=
  if (Demo.served R <? 1)%nat then Demo.efetch_parse R req
  else (Demo.mkRemote (Demo.matches R) (S (Demo.served R)),
        (firstn 1 (fst (snd (Demo.efetch_parse R req))),
         Some (EntrezError "HTTP Error 429"))).

(** A search reply whose count is not a number. *)
Definition esearch_bad_count (R : Demo.remote) (term : string)
  : Demo.remote * result (gmap string string) :=
  (R, Ok (<["Count" := "many"]> (Demo.reply (Demo.matches R)))).

(** A retriever whose session has lost its query key. *)
Definition half_session (n : Z) : NCBIRetriever :=
  {| webenv := Some "MCID_demo"; query_key := None; count := n |}.

Fixpoint has_slash (s : string) : bool :=
  match s with
  | EmptyString => false
  | String c rest => Ascii.eqb c "/" || has_slash rest
  end.

(** A working directory without subdirectories: [open] refuses a path with
    a slash in it. *)
Definition write_error (path : string) (c : file_content) : option exn :=
  if has_slash path then Some (OSError "No such file or directory") else None.

(** A plotting library that refuses every figure. *)
Definition no_chart (path : string) (c : file_content) : option exn :=
  match c with
  | PngFile _ => Some ValueError
  | CsvFile _ => None
  end.

(** What the user types, with a slash in the taxonomic ID. *)
Definition input : user_input :=
  mkInput "a@b.c" "key" "x/9606" "" "" "3".

End Faulty.

(** ** Reading traces: how the readers distribute over a run *)

Section Traces.
Context {Delay : Type}.
Implicit Types evs : list (event Delay).

Lemma efetch_requests_app evs1 evs2 :
  efetch_requests (evs1 ++ evs2) = efetch_requests evs1 ++ efetch_requests evs2.
Proof.
  induction evs1 as [|ev evs1 IH]; [reflexivity|].
  destruct ev; simpl; rewrite IH; reflexivity.
Qed.

Lemma sleeps_app evs1 evs2 :
  sleeps (evs1 ++ evs2) = (sleeps evs1 + sleeps evs2)%nat.
Proof.
  induction evs1 as [|ev evs1 IH]; [reflexivity|].
  destruct ev; simpl; rewrite IH; reflexivity.
Qed.

Lemma yielded_app evs1 evs2 :
  yielded (evs1 ++ evs2) = yielded evs1 ++ yielded evs2.
Proof.
  induction evs1 as [|ev evs1 IH]; [reflexivity|].
  destruct ev; simpl; rewrite IH; reflexivity.
Qed.

Lemma efetch_requests_Yield (recs : list SeqRecord) :
  efetch_requests (map (@Yield Delay) recs) = [].
Proof. induction recs; simpl; auto. Qed.

Lemma sleeps_Yield (recs : list SeqRecord) :
  sleeps (map (@Yield Delay) recs) = 0%nat.
Proof. induction recs; simpl; auto. Qed.

Lemma yielded_Yield (recs : list SeqRecord) :
  yielded (map (@Yield Delay) recs) = recs.
Proof. induction recs; simpl; congruence. Qed.

Lemma yields_before_request_Yield (recs : list SeqRecord) evs :
  yields_before_request (map (@Yield Delay) recs ++ evs)
  = (length recs + yields_before_request evs)%nat.
Proof. induction recs; simpl; congruence. Qed.

Lemma served_in_full_Yield (recs : list SeqRecord) evs :
  served_in_full (map (@Yield Delay) recs ++ evs) = served_in_full evs.
Proof. induction recs; simpl; congruence. Qed.

End Traces.

Ltac trace_simpl :=
  repeat first
    [ rewrite efetch_requests_app | rewrite sleeps_app | rewrite yielded_app
    | rewrite efetch_requests_Yield | rewrite sleeps_Yield | rewrite yielded_Yield ];
  simpl.

(** ** The batch loop *)

Section Loop.
Context {Delay Remote : Type}.
Variable efetch_parse : Remote -> efetch_request -> Remote * (list SeqRecord * option exn).
Variable self : NCBIRetriever.
Variable delay : Delay.

(** One call of [_fetch_batch]: either the session is there and exactly one
    request goes out, or nothing goes out and RuntimeError is raised. *)
Lemma fetch_batch_outcome start size R :
  let b : run Delay Remote _ := _fetch_batch efetch_parse self start size R in
  (exists we qk,
      webenv self = Some we /\ query_key self = Some qk /\
      events b = [Efetch (mkEfetch start size we qk)] /\
      value b = snd (efetch_parse R (mkEfetch start size we qk)) /\
      remote_after b = fst (efetch_parse R (mkEfetch start size we qk)))
  \/ ((webenv self = None \/ query_key self = None) /\
      b = Run [] ([], Some (RuntimeError "error")) R).
Proof.
  unfold _fetch_batch.
  destruct (webenv self) as [we|] eqn:Hw; [destruct (query_key self) as [qk|] eqn:Hq|].
  - left. exists we, qk.
    destruct (efetch_parse R (mkEfetch start size we qk)) as [R1 produced].
    simpl. auto.
  - right. auto.
  - right. destruct (query_key self); auto.
Qed.

Lemma fetch_loop_done remaining start R :
  remaining <= 0 -> fetch_loop efetch_parse self delay remaining start R = Run [] None R.
Proof.
  intros H. rewrite fetch_loop_equation_1.
  destruct (Z_lt_dec 0 remaining); [lia | reflexivity].
Qed.

Lemma fetch_loop_step remaining start R :
  0 < remaining ->
  fetch_loop efetch_parse self delay remaining start R =
    let batch := Z.min remaining 500 in
    let b := _fetch_batch efetch_parse self start batch R in
    match snd (value b) with
    | Some e => Run (events b ++ map Yield (fst (value b))) (Some e) (remote_after b)
    | None =>
        let rest := fetch_loop efetch_parse self delay (remaining - batch) (start + batch)
                      (remote_after b) in
        Run (events b ++ map Yield (fst (value b)) ++ Sleep delay :: events rest)
            (value rest) (remote_after rest)
    end.
Proof.
  intros H. rewrite fetch_loop_equation_1.
  destruct (Z_lt_dec 0 remaining); [reflexivity | lia].
Qed.

(** Induction along the iterations of the loop. *)
Lemma fetch_loop_induction
  (P : Z -> Z -> Remote -> run Delay Remote (option exn) -> Prop) :
  (forall remaining start R, remaining <= 0 -> P remaining start R (Run [] None R)) ->
  (forall remaining start R b e,
      0 < remaining ->
      b = _fetch_batch efetch_parse self start (Z.min remaining 500) R ->
      snd (value b) = Some e ->
      P remaining start R
        (Run (events b ++ map Yield (fst (value b))) (Some e) (remote_after b))) ->
  (forall remaining start R b rest,
      0 < remaining ->
      b = _fetch_batch efetch_parse self start (Z.min remaining 500) R ->
      snd (value b) = None ->
      P (remaining - Z.min remaining 500) (start + Z.min remaining 500) (remote_after b) rest ->
      P remaining start R
        (Run (events b ++ map Yield (fst (value b)) ++ Sleep delay :: events rest)
             (value rest) (remote_after rest))) ->
  forall remaining start R,
    P remaining start R (fetch_loop efetch_parse self delay remaining start R).
Proof.
  intros Hdone Hfail Hnext remaining.
  remember (Z.to_nat remaining) as n eqn:Hn.
  revert remaining Hn.
  induction n as [n IH] using lt_wf_ind.
  intros remaining Hn start R.
  destruct (Z_lt_dec 0 remaining) as [Hpos|Hneg].
  - rewrite fetch_loop_step by assumption. cbv zeta.
    destruct (snd (value (_fetch_batch efetch_parse self start (Z.min remaining 500) R)))
      as [e|] eqn:E.
    + eapply Hfail; eauto.
    + eapply Hnext; eauto.
      eapply (IH (Z.to_nat (remaining - Z.min remaining 500))); [lia | reflexivity].
  - rewrite fetch_loop_done by lia. apply Hdone. lia.
Qed.

End Loop.

(** ** Arithmetic of the batch count *)

Lemma ceil_div_zero : ceil_div 0 500 = 0.
Proof. reflexivity. Qed.

Lemma ceil_div_last remaining :
  0 < remaining <= 500 -> ceil_div remaining 500 = 1.
Proof.
  intros H. unfold ceil_div.
  assert ((- remaining) / 500 = -1) as ->; [|reflexivity].
  symmetry. apply (Z.div_unique (- remaining) 500 (-1) (500 - remaining)); lia.
Qed.

Lemma ceil_div_next remaining :
  ceil_div remaining 500 = 1 + ceil_div (remaining - 500) 500.
Proof.
  unfold ceil_div.
  replace (- (remaining - 500)) with (- remaining + 1 * 500) by lia.
  rewrite Z.div_add by lia. lia.
Qed.

Lemma ceil_div_step remaining :
  0 < remaining ->
  ceil_div remaining 500 =
    1 + ceil_div (Z.max 0 (remaining - Z.min remaining 500)) 500.
Proof.
  intros H. destruct (Z_le_gt_dec remaining 500).
  - rewrite Z.min_l, Z.sub_diag by lia. simpl Z.max.
    rewrite ceil_div_last by lia. reflexivity.
  - rewrite Z.min_r, Z.max_r by lia. apply ceil_div_next.
Qed.

Lemma ceil_div_nonneg remaining : 0 <= remaining -> 0 <= ceil_div remaining 500.
Proof.
  intros H. unfold ceil_div.
  assert ((- remaining) / 500 <= 0); [|lia].
  apply Z.div_le_upper_bound; lia.
Qed.

(** ** Windows, batches and delays of [fetch_all] *)

Lemma contiguous_from_head start (reqs : list efetch_request) q :
  contiguous_from start reqs -> head reqs = Some q -> retstart q = start.
Proof.
  destruct reqs as [|q0 reqs]; simpl; [discriminate|].
  intros [H _] [= <-]. exact H.
Qed.

Lemma contiguous_from_consecutive (reqs : list efetch_request) :
  forall start i prev next,
    contiguous_from start reqs ->
    reqs !! i = Some prev -> reqs !! S i = Some next ->
    retstart next = retstart prev + retmax prev.
Proof.
  induction reqs as [|q reqs IH]; intros start i prev next Hc Hi Hn; [discriminate|].
  destruct Hc as [Hq Hrest]. destruct i as [|i]; simpl in *.
  - injection Hi as <-. destruct reqs as [|q' reqs]; [discriminate|].
    injection Hn as <-. destruct Hrest as [Hq' _]. lia.
  - eapply IH; eauto.
Qed.

Section FetchAll.
Context {Delay Remote : Type}.
Variable efetch_parse : Remote -> efetch_request -> Remote * (list SeqRecord * option exn).
Variable self : NCBIRetriever.
Variable delay : Delay.

Abbreviation loop := (fetch_loop efetch_parse self delay).

(** In every run of the loop, failed or not, the requested windows follow one
    another from [start] and hold between 1 and 500 records. *)
Lemma fetch_loop_windows remaining start R :
  contiguous_from start (efetch_requests (events (loop remaining start R))) /\
  Forall (fun q => 1 <= retmax q <= 500) (efetch_requests (events (loop remaining start R))).
Proof.
  revert remaining start R.
  apply (fetch_loop_induction efetch_parse self delay
           (fun remaining start R r =>
              contiguous_from start (efetch_requests (events r)) /\
              Forall (fun q => 1 <= retmax q <= 500) (efetch_requests (events r)))).
  - intros; simpl; auto.
  - intros remaining start R b e Hpos -> He.
    destruct (fetch_batch_outcome (Delay:=Delay) efetch_parse self start (Z.min remaining 500) R)
      as [(we & qk & _ & _ & Hev & _ & _) | [_ Hb]]; simpl; trace_simpl.
    + rewrite Hev. simpl. split; [auto|]. repeat constructor; simpl; lia.
    + rewrite Hb. simpl. auto.
  - intros remaining start R b rest Hpos -> Hnone [IHc IHf].
    destruct (fetch_batch_outcome (Delay:=Delay) efetch_parse self start (Z.min remaining 500) R)
      as [(we & qk & _ & _ & Hev & _ & _) | [_ Hb]]; simpl; trace_simpl.
    + rewrite Hev. simpl. split; [auto|]. constructor; [simpl; lia | exact IHf].
    + rewrite Hb in Hnone. discriminate.
Qed.

(** A run of the loop that ends without an exception: how many windows it
    requested, how often it slept, how it ends, and how much it yielded. *)
Lemma fetch_loop_completed remaining start R :
  value (loop remaining start R) = None ->
  let evs := events (loop remaining start R) in
  Z.of_nat (length (efetch_requests evs)) = ceil_div (Z.max 0 remaining) 500 /\
  sleeps evs = length (efetch_requests evs) /\
  (evs = [] \/ last evs = Some (Sleep delay)) /\
  yields_before_request evs = 0%nat /\
  (served_in_full evs -> Z.of_nat (length (yielded evs)) = Z.max 0 remaining).
Proof.
  revert remaining start R.
  apply (fetch_loop_induction efetch_parse self delay
           (fun remaining start R r =>
              value r = None ->
              Z.of_nat (length (efetch_requests (events r)))
                = ceil_div (Z.max 0 remaining) 500 /\
              sleeps (events r) = length (efetch_requests (events r)) /\
              (events r = [] \/ last (events r) = Some (Sleep delay)) /\
              yields_before_request (events r) = 0%nat /\
              (served_in_full (events r) ->
               Z.of_nat (length (yielded (events r))) = Z.max 0 remaining))).
  - intros remaining start R Hle _. simpl.
    rewrite Z.max_l by lia. repeat split; auto.
  - intros; simpl in *; discriminate.
  - intros remaining start R b rest Hpos -> Hnone IH Hv. simpl in Hv.
    destruct (IH Hv) as (IHn & IHs & IHl & IHz & IHy). clear IH.
    destruct (fetch_batch_outcome (Delay:=Delay) efetch_parse self start
                (Z.min remaining 500) R)
      as [(we & qk & _ & _ & Hev & Hval & _) | [_ Hb]];
      [|rewrite Hb in Hnone; discriminate].
    simpl. rewrite Hev. simpl. split; [|split; [|split; [|split]]].
    + trace_simpl. rewrite (Z.max_r 0 remaining) by lia.
      rewrite (ceil_div_step remaining Hpos).
      rewrite <- IHn. lia.
    + trace_simpl. rewrite IHs. reflexivity.
    + right. rewrite app_comm_cons, last_app, last_cons.
      destruct IHl as [-> | ->]; reflexivity.
    + reflexivity.
    + rewrite yields_before_request_Yield, served_in_full_Yield. simpl.
      rewrite IHz. intros [Hfull Hrest]. specialize (IHy Hrest).
      trace_simpl. rewrite length_app. lia.
Qed.

(** One completed iteration: the session is there, the window requested is
    (start, min(remaining, 500)), and the rest of the run is a completed run
    of the loop on what remains. *)
Lemma fetch_loop_completed_step remaining start R :
  0 < remaining ->
  value (loop remaining start R) = None ->
  exists we qk R',
    value (loop (remaining - Z.min remaining 500) (start + Z.min remaining 500) R') = None /\
    efetch_requests (events (loop remaining start R)) =
      mkEfetch start (Z.min remaining 500) we qk
      :: efetch_requests
           (events (loop (remaining - Z.min remaining 500) (start + Z.min remaining 500) R')) /\
    sleeps (events (loop remaining start R)) =
      S (sleeps (events (loop (remaining - Z.min remaining 500)
                           (start + Z.min remaining 500) R'))).
Proof.
  intros Hpos. rewrite fetch_loop_step by assumption. cbv zeta.
  destruct (fetch_batch_outcome (Delay:=Delay) efetch_parse self start
              (Z.min remaining 500) R)
    as [(we & qk & _ & _ & Hev & _ & _) | [_ Hb]].
  - destruct (snd (value (_fetch_batch efetch_parse self start (Z.min remaining 500) R)));
      simpl; [discriminate|].
    intros Hv. exists we, qk. eexists. split; [exact Hv|].
    trace_simpl. rewrite Hev. simpl. auto.
  - rewrite Hb. simpl. discriminate.
Qed.



(** C2 (amended): in a run of [fetch_all] that ends without an exception,
    [time.sleep] is called once after every batch, the final one included: n
    requests give n sleeps and a run with a request ends with a sleep; with
    count 1200 and limit 300 there is the one window (0,300) and one sleep. *)
Theorem fetch_all_sleeps limit R :
  value (fetch_all efetch_parse self limit delay R) = None ->
  let evs := events (fetch_all efetch_parse self limit delay R) in
  sleeps evs = length (efetch_requests evs) /\
  (efetch_requests evs <> [] -> last evs = Some (Sleep delay)) /\
  (count self = 1200 -> limit = Some 300 ->
   map window (efetch_requests evs) = [(0, 300)] /\ sleeps evs = 1%nat).
Proof.
  unfold fetch_all. cbv zeta. intros Hv.
  destruct (fetch_loop_completed (initial_remaining self limit) 0 R Hv)
    as (_ & Hs & Hl & _).
  split; [exact Hs|]. split.
  - intros Hne. destruct Hl as [Hl|Hl]; [|exact Hl].
    rewrite Hl in Hne. contradiction.
  - intros Hc ->. clear Hs Hl. unfold initial_remaining in *. rewrite Hc in *.
    change (Z.min 300 1200) with 300 in *.
    destruct (fetch_loop_completed_step 300 0 R) as (we & qk & R1 & Hv1 & -> & ->);
      [lia | assumption |].
    change (300 - Z.min 300 500) with 0 in *.
    rewrite fetch_loop_done by lia. split; reflexivity.
Qed.

(** C3: in every run of [fetch_all] the first window requested starts at
    offset 0, each next window starts where the previous one ends, and every
    window holds at least one record, so that no two windows overlap. *)
Theorem fetch_all_windows_contiguous limit R :
  let reqs := efetch_requests (events (fetch_all efetch_parse self limit delay R)) in
  (forall q, head reqs = Some q -> retstart q = 0) /\
  (forall i prev next,
      reqs !! i = Some prev -> reqs !! S i = Some next ->
      retstart next = retstart prev + retmax prev) /\
  (forall q, q ∈ reqs -> 1 <= retmax q <= 500).
Proof.
  unfold fetch_all. cbv zeta.
  destruct (fetch_loop_windows (initial_remaining self limit) 0 R) as [Hc Hf].
  split; [|split].
  - intros q. apply contiguous_from_head. exact Hc.
  - intros i prev next. eapply contiguous_from_consecutive. exact Hc.
  - intros q Hq. rewrite Forall_forall in Hf. apply Hf. exact Hq.
Qed.

(** C4: on a retriever without a session (no WebEnv or no query key), the
    single-batch fetch raises the RuntimeError of line 43, yields nothing and
    sends no request: the remote is left as it was. *)
Theorem fetch_batch_requires_session start size R :
  webenv self = None \/ query_key self = None ->
  _fetch_batch (Delay:=Delay) efetch_parse self start size R
    = Run [] ([], Some NotInitializedError) R.
Proof.
  intros Hnone.
  destruct (fetch_batch_outcome (Delay:=Delay) efetch_parse self start size R)
    as [(we & qk & Hw & Hq & _) | [_ Hb]]; [|exact Hb].
  destruct Hnone; congruence.
Qed.

(** C6: on a retriever fresh from [__init__], [fetch_all] with any limit
    yields nothing, raises nothing and performs nothing: the loop is not
    entered, so the guard of [_fetch_batch] is never reached. *)
Theorem fetch_all_before_search email api_key limit R :
  fetch_all efetch_parse (snd (init (Delay:=Delay) email api_key)) limit delay R
    = Run [] None R.
Proof.
  unfold fetch_all. cbv zeta.
  apply fetch_loop_done.
  destruct limit as [l|]; simpl; lia.
Qed.

End FetchAll.

(** ** The runs against the concrete remote *)


(** The remote of 1200 records serves the three windows in full and 1200
    records are yielded; with a stale count of 1300 the last window comes
    back short and the yield stays at 1200. *)
Example fetch_all_finite_remote :
  let r := fetch_all Demo.efetch_finite (Demo.searched 1200) None
             Demo.default_delay Demo.R0 in
  let r' := fetch_all Demo.efetch_finite (Demo.searched 1300) None
              Demo.default_delay Demo.R0 in
  served_in_full (events r) /\ length (yielded (events r)) = 1200%nat /\
  ~ served_in_full (events r') /\ length (yielded (events r')) = 1200%nat.
Proof.
  cbv zeta. split; [vm_compute; auto|]. split; [vm_compute; reflexivity|].
  split; [|vm_compute; reflexivity].
  vm_compute. intros (_ & _ & H & _). discriminate H.
Qed.


Lemma fetch_all_sleeps_witness :
  let r := fetch_all Demo.efetch_parse (Demo.searched 1200) None Demo.default_delay Demo.R0 in
  value r = None /\
  sleeps (events r) = length (efetch_requests (events r)) /\
  (efetch_requests (events r) <> [] -> last (events r) = Some (Sleep Demo.default_delay)) /\
  (1200 = 1200 -> None = Some 300 ->
   map window (efetch_requests (events r)) = [(0, 300)] /\ sleeps (events r) = 1%nat).
Proof.
  split; [vm_compute; reflexivity|].
  apply (fetch_all_sleeps Demo.efetch_parse (Demo.searched 1200) Demo.default_delay None Demo.R0).
  vm_compute; reflexivity.
Defined.

(** Count 1200, limit 300: one window, and the delay is invoked once, after
    that only and final batch; n - 1 would be zero. *)
Lemma sleep_after_final_batch :
  let r := fetch_all Demo.efetch_parse (Demo.searched 1200) (Some 300)
             Demo.default_delay Demo.R0 in
  value r = None /\
  map window (efetch_requests (events r)) = [(0, 300)] /\
  sleeps (events r) = 1%nat /\
  sleeps (events r) <> (length (efetch_requests (events r)) - 1)%nat /\
  last (events r) = Some (Sleep Demo.default_delay).
Proof. vm_compute. repeat split; discriminate. Qed.

Lemma fetch_batch_requires_session_witness :
  (webenv Demo.fresh = None \/ query_key Demo.fresh = None) /\
  _fetch_batch (Delay:=Demo.delay) Demo.efetch_parse Demo.fresh 0 500 Demo.R0
    = Run [] ([], Some NotInitializedError) Demo.R0.
Proof.
  split; [left; reflexivity|].
  apply (fetch_batch_requires_session Demo.efetch_parse Demo.fresh 0 500 Demo.R0).
  left; reflexivity.
Defined.

(** ** [search] *)

Section Search.
Context {Delay Remote : Type}.
Variable esearch_read : Remote -> string -> Remote * result (gmap string string).

(** What [search] returns or raises, read off the reply of the remote. *)
Lemma search_outcome self taxid min_len max_len R :
  snd (value (search (Delay:=Delay) esearch_read self taxid min_len max_len R)) =
    match snd (esearch_read R (build_query taxid min_len max_len)) with
    | Raise e => Raise e
    | Ok res => snd (store_session self res)
    end.
Proof.
  unfold search.
  destruct (esearch_read R (build_query taxid min_len max_len)) as [R1 [res|e]];
    reflexivity.
Qed.

Lemma search_events self taxid min_len max_len R :
  events (search (Delay:=Delay) esearch_read self taxid min_len max_len R)
  = [Esearch (build_query taxid min_len max_len)].
Proof.
  unfold search.
  destruct (esearch_read R (build_query taxid min_len max_len)) as [R1 [res|e]];
    reflexivity.
Qed.

(** C5: [search] fails when the remote call raises (with that exception) and
    when the reply lacks the session token, the query key or the count (with
    the KeyError of the first missing key); a well-formed reply with count
    zero makes it return 0, which is no failure. *)
Theorem search_failure self taxid min_len max_len R :
  let reply := snd (esearch_read R (build_query taxid min_len max_len)) in
  let outcome :=
    snd (value (search (Delay:=Delay) esearch_read self taxid min_len max_len R)) in
  (forall e, reply = Raise e -> outcome = Raise e) /\
  (forall res,
      reply = Ok res ->
      res !! "WebEnv" = None \/ res !! "QueryKey" = None \/ res !! "Count" = None ->
      exists key,
        outcome = Raise (KeyError key) /\ res !! key = None /\
        key ∈ ["WebEnv"; "QueryKey"; "Count"]) /\
  (forall res we qk c,
      reply = Ok res ->
      res !! "WebEnv" = Some we -> res !! "QueryKey" = Some qk ->
      res !! "Count" = Some c -> Py.int c = Some 0 ->
      outcome = Ok 0) /\
  (forall e, @Raise Z e <> Ok 0).
Proof.
  cbv zeta. rewrite search_outcome.
  split; [|split; [|split]].
  - intros e ->. reflexivity.
  - intros res -> Hmiss. unfold store_session.
    destruct (res !! "WebEnv") as [we|] eqn:Hw.
    + destruct (res !! "QueryKey") as [qk|] eqn:Hq.
      * destruct (res !! "Count") as [c|] eqn:Hc.
        -- destruct Hmiss as [?|[?|?]]; discriminate.
        -- exists "Count". repeat split; auto. repeat constructor.
      * exists "QueryKey". repeat split; auto. repeat constructor.
    + exists "WebEnv". repeat split; auto. repeat constructor.
  - intros res we qk c -> Hw Hq Hc Hint. unfold store_session.
    rewrite Hw, Hq, Hc, Hint. reflexivity.
  - intros e. discriminate.
Qed.

(** C7: the query is txid<ID>[Organism]; with one bound missing the clause
    AND <min>:<max>[SLEN] is appended with 1 for a missing lower and
    1000000000 for a missing upper bound; with both missing nothing is
    appended; with both given they are used as they are, in whatever order;
    and this query is the term [search] sends. *)
Theorem build_query_clauses taxid :
  build_query taxid None None = "txid" +:+ taxid +:+ "[Organism]" /\
  (forall lo,
      build_query taxid (Some lo) None =
        ("txid" +:+ taxid +:+ "[Organism]")
        +:+ " AND " +:+ Py.str lo +:+ ":1000000000[SLEN]") /\
  (forall hi,
      build_query taxid None (Some hi) =
        ("txid" +:+ taxid +:+ "[Organism]")
        +:+ " AND 1:" +:+ Py.str hi +:+ "[SLEN]") /\
  (forall lo hi,
      build_query taxid (Some lo) (Some hi) =
        ("txid" +:+ taxid +:+ "[Organism]")
        +:+ " AND " +:+ Py.str lo +:+ ":" +:+ Py.str hi +:+ "[SLEN]") /\
  (forall self min_len max_len R,
      events (search (Delay:=Delay) esearch_read self taxid min_len max_len R) =
        [Esearch (build_query taxid min_len max_len)]).
Proof.
  repeat split; try reflexivity.
  intros self min_len max_len R. apply search_events.
Qed.

End Search.

(** Three searches against the concrete remote: the call raises, the reply
    lacks the query key, the reply is well formed with no match. *)
Example search_remote_down :
  snd (value (search (Delay:=Demo.delay) Demo.esearch_down Demo.fresh "9606" None None Demo.R0))
    = Raise (EntrezError "HTTP Error 502").
Proof. reflexivity. Qed.

Example search_reply_without_key :
  value (search (Delay:=Demo.delay) Demo.esearch_no_key Demo.fresh "9606" None None Demo.R0)
    = ({| webenv := Some "MCID_demo"; query_key := None; count := 0 |},
       Raise (KeyError "QueryKey")).
Proof. vm_compute. reflexivity. Qed.

Example search_no_match :
  value (search (Delay:=Demo.delay) Demo.esearch_read Demo.fresh "9606" None None
           (Demo.mkRemote 0 0))
    = (Demo.searched 0, Ok 0).
Proof. vm_compute. reflexivity. Qed.

Example build_query_inverted :
  build_query "9606" (Some 900) (Some 5) = "txid9606[Organism] AND 900:5[SLEN]".
Proof. reflexivity. Qed.

(** ** The report and the chart *)

Section Sorting.
Context {A : Type} (key : A -> Z).

Lemma insert_reverse_Permutation x l :
  Permutation (insert_reverse key x l) (x :: l).
Proof.
  induction l as [|y l IH]; simpl; [reflexivity|].
  destruct (key x <? key y); [|reflexivity].
  rewrite IH. apply perm_swap.
Qed.

Lemma sorted_reverse_Permutation l : Permutation (sorted_reverse key l) l.
Proof.
  induction l as [|x l IH]; simpl; [reflexivity|].
  rewrite insert_reverse_Permutation, IH. reflexivity.
Qed.

Lemma insert_reverse_descending x l :
  StronglySorted (fun a b => key a >= key b) l ->
  StronglySorted (fun a b => key a >= key b) (insert_reverse key x l).
Proof.
  induction l as [|y l IH]; intros Hs; simpl.
  - repeat constructor.
  - apply StronglySorted_inv in Hs as [Hl Hy].
    destruct (key x <? key y) eqn:E.
    + apply Z.ltb_lt in E. constructor; [auto|].
      rewrite (insert_reverse_Permutation x l).
      constructor; [lia | exact Hy].
    + apply Z.ltb_ge in E. constructor; [constructor; assumption|].
      constructor; [lia|].
      eapply Forall_impl; [exact Hy|]. simpl. intros; lia.
Qed.

Lemma sorted_reverse_descending l :
  StronglySorted (fun a b => key a >= key b) (sorted_reverse key l).
Proof.
  induction l as [|x l IH]; simpl; [constructor|].
  apply insert_reverse_descending, IH.
Qed.

(** An element is only moved behind elements with a strictly greater key, so
    the elements of any one key keep their order. *)
Lemma insert_reverse_stable n x l :
  filter (fun a => key a = n) (insert_reverse key x l)
  = filter (fun a => key a = n) (x :: l).
Proof.
  induction l as [|y l IH]; simpl; [reflexivity|].
  destruct (key x <? key y) eqn:E; [|reflexivity].
  apply Z.ltb_lt in E.
  rewrite (filter_cons _ y (insert_reverse key x l)), IH.
  rewrite (filter_cons _ x (y :: l)), (filter_cons _ x l), (filter_cons _ y l).
  repeat case_decide; try reflexivity; lia.
Qed.

Lemma sorted_reverse_stable n l :
  filter (fun a => key a = n) (sorted_reverse key l) = filter (fun a => key a = n) l.
Proof.
  induction l as [|x l IH]; simpl; [reflexivity|].
  rewrite insert_reverse_stable, !filter_cons, IH. reflexivity.
Qed.

End Sorting.

(** C8: the order in which the plotter draws the records is a rearrangement
    of them that is non-increasing in sequence length throughout, and the
    records of any one length appear in their original relative order; the
    accessions and lengths of the chart handed to the plotting library follow
    that order, and the chart is the file written when the write succeeds. *)
Theorem plot_order_descending_stable (records : list SeqRecord) :
  Permutation (plot_order records) records /\
  StronglySorted (fun a b => seq_len a >= seq_len b) (plot_order records) /\
  (forall n,
      filter (fun r => seq_len r = n) (plot_order records)
      = filter (fun r => seq_len r = n) records) /\
  (forall (Delay : Type) (write_error : string -> file_content -> option exn)
          (path : string),
      exists c,
        plot_lengths (Delay:=Delay) write_error records path
        = match write_error path (PngFile c) with
          | None => ([WriteFile path (PngFile c)], None)
          | Some e => ([], Some e)
          end /\
        chart_x c = map id (plot_order records) /\
        chart_y c = map seq_len (plot_order records)).
Proof.
  split; [|split; [|split]].
  - apply sorted_reverse_Permutation.
  - apply sorted_reverse_descending.
  - intros n. apply sorted_reverse_stable.
  - intros Delay write_error path. exists (length_chart records).
    split; [reflexivity|]. split; reflexivity.
Qed.

Example plot_order_ties :
  map id
    (plot_order [mkSeqRecord "A" "ACG" "a"; mkSeqRecord "B" "ACGTT" "b";
                 mkSeqRecord "C" "TTT" "c"; mkSeqRecord "D" "ACGTA" "d";
                 mkSeqRecord "E" "G" "e"; mkSeqRecord "F" "CCC" "f"])
  = ["B"; "D"; "A"; "C"; "F"; "E"].
Proof. reflexivity. Qed.

(** C9: for n records the report handed to the writer holds n + 1 rows: the
    header Accession, Length, Description, then for each record, at its
    position in the input, the row of its accession, sequence length and
    description; these rows are the file written when the write succeeds. *)
Theorem write_csv_rows (Delay : Type)
  (write_error : string -> file_content -> option exn)
  (records : list SeqRecord) (path : string) :
  exists rows,
    write_csv (Delay:=Delay) write_error records path
    = match write_error path (CsvFile rows) with
      | None => ([WriteFile path (CsvFile rows)], None)
      | Some e => ([], Some e)
      end /\
    length rows = S (length records) /\
    rows !! 0%nat = Some ["Accession"; "Length"; "Description"] /\
    (forall i : nat,
        rows !! S i
        = (fun r => [id r; Py.str (seq_len r); description r]) <$> records !! i).
Proof.
  exists (csv_rows records). unfold write_csv, csv_rows.
  split; [reflexivity|]. split; [simpl; rewrite length_map; reflexivity|].
  split; [reflexivity|].
  intros i. simpl. apply list_lookup_fmap.
Qed.

(** ** [main] *)

Section Main.
Context {Delay Remote : Type}.
Variable default_delay : Delay.
Variable esearch_read : Remote -> string -> Remote * result (gmap string string).
Variable efetch_parse : Remote -> efetch_request -> Remote * (list SeqRecord * option exn).
Variable write_error : string -> file_content -> option exn.

Lemma files_written_app (evs1 evs2 : list (event Delay)) :
  files_written (evs1 ++ evs2) = files_written evs1 ++ files_written evs2.
Proof.
  induction evs1 as [|ev evs1 IH]; [reflexivity|].
  destruct ev; simpl; rewrite IH; reflexivity.
Qed.

Lemma files_written_Yield (recs : list SeqRecord) :
  files_written (map (@Yield Delay) recs) = [].
Proof. induction recs; simpl; auto. Qed.

(** Retrieval writes no file. *)
Lemma fetch_loop_writes_nothing self delay remaining start R :
  files_written (events (fetch_loop (Delay:=Delay) efetch_parse self delay remaining start R))
  = [].
Proof.
  revert remaining start R.
  apply (fetch_loop_induction efetch_parse self delay
           (fun _ _ _ r => files_written (events r) = [])).
  - reflexivity.
  - intros remaining start R b e _ -> _. simpl.
    rewrite files_written_app, files_written_Yield.
    destruct (fetch_batch_outcome (Delay:=Delay) efetch_parse self start
                (Z.min remaining 500) R)
      as [(we & qk & _ & _ & -> & _) | [_ ->]]; reflexivity.
  - intros remaining start R b rest _ -> _ IH. simpl.
    rewrite !files_written_app, files_written_Yield. simpl. rewrite IH.
    destruct (fetch_batch_outcome (Delay:=Delay) efetch_parse self start
                (Z.min remaining 500) R)
      as [(we & qk & _ & _ & -> & _) | [_ ->]]; reflexivity.
Qed.

Lemma prompt_int_events msg typed :
  files_written (fst (prompt_int (Delay:=Delay) msg typed)) = [] /\
  efetch_requests (fst (prompt_int (Delay:=Delay) msg typed)) = [].
Proof.
  unfold prompt_int.
  destruct (String.eqb (Py.strip typed) EmptyString); [split; reflexivity|].
  destruct (Py.int (Py.strip typed)); split; reflexivity.
Qed.

(** Up to and including the search, [main] writes no file and fetches nothing. *)
Lemma main_prelude_quiet inp R :
  files_written (main_prelude (Delay:=Delay) esearch_read inp R) = [] /\
  efetch_requests (main_prelude (Delay:=Delay) esearch_read inp R) = [].
Proof.
  unfold main_prelude, main_search.
  rewrite !files_written_app, !efetch_requests_app, search_events.
  destruct (prompt_int_events "Minimal sequence length " (typed_min_len inp)) as [-> ->].
  destruct (prompt_int_events "Maximal sequence length " (typed_max_len inp)) as [-> ->].
  destruct (prompt_int_events "Maximum records to download " (typed_max_records inp))
    as [-> ->].
  split; reflexivity.
Qed.

(** [main] in terms of its named parts. *)
Lemma main_unfold inp timestamp R :
  let s := main_search (Delay:=Delay) esearch_read inp R in
  let f := main_fetch default_delay esearch_read efetch_parse inp R in
  let before := main_prelude (Delay:=Delay) esearch_read inp R in
  let records := yielded (events f) in
  let csv_file := output_prefix inp timestamp +:+ ".csv" in
  let png_file := output_prefix inp timestamp +:+ ".png" in
  let csv := WriteFile csv_file (CsvFile (csv_rows records)) in
  let png := WriteFile png_file (PngFile (length_chart records)) in
  main default_delay esearch_read efetch_parse write_error inp timestamp R =
    match snd (value s) with
    | Raise e => Run before (Uncaught e) (remote_after s)
    | Ok total =>
        if total =? 0 then
          Run (before ++ [Print "Not found"]) (SystemExit 0) (remote_after s)
        else
          match value f with
          | Some e => Run (before ++ events f) (Uncaught e) (remote_after f)
          | None =>
              match records with
              | [] => Run (before ++ events f ++ [Print "Download failed"])
                          (SystemExit 1) (remote_after f)
              | _ :: _ =>
                  match write_error csv_file (CsvFile (csv_rows records)) with
                  | Some e => Run (before ++ events f) (Uncaught e) (remote_after f)
                  | None =>
                      match write_error png_file (PngFile (length_chart records)) with
                      | Some e =>
                          Run (before ++ events f
                               ++ [csv; Print ("CSV report saved -> " +:+ csv_file)])
                              (Uncaught e) (remote_after f)
                      | None =>
                          Run (before ++ events f
                               ++ [csv; Print ("CSV report saved -> " +:+ csv_file);
                                   png;
                                   Print ("Length plot saved -> " +:+ png_file +:+ newline)])
                              Returned (remote_after f)
                      end
                  end
              end
          end
    end.
Proof.
  unfold main, main_fetch, main_prelude, main_search, output_prefix,
    write_csv, plot_lengths.
  destruct (prompt_int "Minimal sequence length " (typed_min_len inp)) as [ev_min min_len].
  destruct (prompt_int "Maximal sequence length " (typed_max_len inp)) as [ev_max max_len].
  destruct (prompt_int "Maximum records to download " (typed_max_records inp))
    as [ev_rec max_records].
  unfold init. cbv beta iota zeta. cbn [fst snd].
  repeat match goal with
         | |- context [write_error ?path ?c] => destruct (write_error path c)
         end;
    cbn [fst snd]; rewrite ?app_nil_r; reflexivity.
Qed.


End Main.

(** Three runs of [main] against the concrete remote. *)
Example main_not_found :
  let r := main Demo.default_delay Demo.esearch_read Demo.efetch_parse Demo.write_error
             Demo.input "20250101_120000" (Demo.mkRemote 0 0) in
  value r = SystemExit 0 /\ last (events r) = Some (Print "Not found").
Proof. vm_compute. split; reflexivity. Qed.

Example main_download_failed :
  let r := main Demo.default_delay Demo.esearch_read Demo.efetch_parse Demo.write_error
             (mkInput "a@b.c" "key" "9606" "" "" "0") "20250101_120000" Demo.R0 in
  value r = SystemExit 1 /\ last (events r) = Some (Print "Download failed").
Proof. vm_compute. split; reflexivity. Qed.

Example main_success :
  let r := main Demo.default_delay Demo.esearch_read Demo.efetch_parse Demo.write_error
             Demo.input "20250101_120000" Demo.R0 in
  value r = Returned /\
  files_written (events r)
  = ["taxid_9606_20250101_120000.csv"; "taxid_9606_20250101_120000.png"].
Proof. vm_compute. split; reflexivity. Qed.


(** The chart is refused after the CSV file was written. *)
Example main_chart_refused :
  let r := main Demo.default_delay Demo.esearch_read Demo.efetch_parse Faulty.no_chart
             Demo.input "20250101_120000" Demo.R0 in
  value r = Uncaught ValueError /\
  files_written (events r) = ["taxid_9606_20250101_120000.csv"] /\
  last (events r) = Some (Print "CSV report saved -> taxid_9606_20250101_120000.csv").
Proof. vm_compute. repeat split; reflexivity. Qed.

(** ** More on the batch loop: range, failure, session *)

Section FetchRange.
Context {Delay Remote : Type}.
Variable efetch_parse : Remote -> efetch_request -> Remote * (list SeqRecord * option exn).
Variable self : NCBIRetriever.
Variable delay : Delay.

Abbreviation loop' := (fetch_loop efetch_parse self delay).

(** In every run of the loop the windows stay inside what remains, their
    number is bounded, and a remote that never returns more than it is asked
    for keeps the yield within what remains. *)
Lemma fetch_loop_bounded remaining start R :
  let evs := events (loop' remaining start R) in
  Forall (fun q => start <= retstart q /\
                   retstart q + retmax q <= start + Z.max 0 remaining)
         (efetch_requests evs) /\
  Z.of_nat (length (efetch_requests evs)) <= ceil_div (Z.max 0 remaining) 500 /\
  ((forall R' req,
       (length (fst (snd (efetch_parse R' req))) <= Z.to_nat (retmax req))%nat) ->
   Z.of_nat (length (yielded evs)) <= Z.max 0 remaining).
Proof.
  cbv zeta. revert remaining start R.
  apply (fetch_loop_induction efetch_parse self delay
           (fun remaining start R r =>
              Forall (fun q => start <= retstart q /\
                               retstart q + retmax q <= start + Z.max 0 remaining)
                     (efetch_requests (events r)) /\
              Z.of_nat (length (efetch_requests (events r)))
                <= ceil_div (Z.max 0 remaining) 500 /\
              ((forall R' req,
                   (length (fst (snd (efetch_parse R' req)))
                    <= Z.to_nat (retmax req))%nat) ->
               Z.of_nat (length (yielded (events r))) <= Z.max 0 remaining))).
  - intros remaining start R Hle. simpl. rewrite Z.max_l by lia.
    split; [constructor|]. split; [reflexivity | intros; lia].
  - intros remaining start R b e Hpos -> He.
    pose proof (ceil_div_step remaining Hpos) as Hc.
    pose proof (ceil_div_nonneg (Z.max 0 (remaining - Z.min remaining 500))
                  ltac:(lia)) as Hn.
    destruct (fetch_batch_outcome (Delay:=Delay) efetch_parse self start
                (Z.min remaining 500) R)
      as [(we & qk & _ & _ & Hev & Hval & _) | [_ Hb]]; simpl; trace_simpl;
      rewrite (Z.max_r 0 remaining) by lia.
    + rewrite Hev. simpl.
      split; [repeat constructor; simpl; lia|]. split; [lia|].
      intros Hmost. rewrite Hval.
      specialize (Hmost R (mkEfetch start (Z.min remaining 500) we qk)).
      simpl in Hmost. lia.
    + rewrite Hb. simpl. split; [constructor|]. split; [lia | intros; lia].
  - intros remaining start R b rest Hpos -> Hnone (IHw & IHn & IHy).
    pose proof (ceil_div_step remaining Hpos) as Hc.
    destruct (fetch_batch_outcome (Delay:=Delay) efetch_parse self start
                (Z.min remaining 500) R)
      as [(we & qk & _ & _ & Hev & Hval & _) | [_ Hb]];
      [|rewrite Hb in Hnone; discriminate].
    simpl. trace_simpl. rewrite Hev. simpl.
    rewrite (Z.max_r 0 remaining) by lia.
    split; [|split].
    + constructor; [simpl; lia|].
      eapply Forall_impl; [exact IHw|]. simpl. intros q [H1 H2]. lia.
    + lia.
    + intros Hmost. specialize (IHy Hmost). rewrite Hval, length_app.
      specialize (Hmost R (mkEfetch start (Z.min remaining 500) we qk)).
      simpl in Hmost. lia.
Qed.

(** A completed run that had something to fetch ends with the window that
    reaches the end of the range. *)
Lemma fetch_loop_reaches_end remaining start R :
  let r := loop' remaining start R in
  (remaining <= 0 -> efetch_requests (events r) = []) /\
  (0 < remaining -> value r = None ->
   exists q,
     last (efetch_requests (events r)) = Some q /\
     retstart q + retmax q = start + remaining).
Proof.
  cbv zeta. revert remaining start R.
  apply (fetch_loop_induction efetch_parse self delay
           (fun remaining start R r =>
              (remaining <= 0 -> efetch_requests (events r) = []) /\
              (0 < remaining -> value r = None ->
               exists q, last (efetch_requests (events r)) = Some q /\
                         retstart q + retmax q = start + remaining))).
  - intros remaining start R Hle. split; [reflexivity | lia].
  - intros remaining start R b e Hpos _ _. split; [lia|].
    simpl. discriminate.
  - intros remaining start R b rest Hpos -> Hnone [IHnil IH].
    split; [lia|]. intros _ Hv. simpl in Hv.
    destruct (fetch_batch_outcome (Delay:=Delay) efetch_parse self start
                (Z.min remaining 500) R)
      as [(we & qk & _ & _ & Hev & _ & _) | [_ Hb]];
      [|rewrite Hb in Hnone; discriminate].
    simpl. trace_simpl. rewrite Hev. simpl.
    destruct (Z_lt_dec 0 (remaining - Z.min remaining 500)) as [Hmore|Hlast].
    + destruct (IH Hmore Hv) as (q & Hq & Hend).
      exists q. rewrite last_cons, Hq. split; [reflexivity | lia].
    + rewrite IHnil by lia. eexists. split; [reflexivity|]. simpl. lia.
Qed.

(** A run that ends with an exception: either no request went out at all,
    because the guard of [_fetch_batch] refused the first batch, or the
    failing request is the last one and no sleep follows it. *)
Lemma fetch_loop_failed remaining start R e :
  value (loop' remaining start R) = Some e ->
  let evs := events (loop' remaining start R) in
  (evs = [] /\ e = RuntimeError "error" /\
   (webenv self = None \/ query_key self = None))
  \/ (S (sleeps evs) = length (efetch_requests evs) /\
      exists we qk, webenv self = Some we /\ query_key self = Some qk).
Proof.
  cbv zeta. revert remaining start R.
  apply (fetch_loop_induction efetch_parse self delay
           (fun remaining start R r =>
              value r = Some e ->
              (events r = [] /\ e = RuntimeError "error" /\
               (webenv self = None \/ query_key self = None))
              \/ (S (sleeps (events r)) = length (efetch_requests (events r)) /\
                  exists we qk, webenv self = Some we /\ query_key self = Some qk))).
  - intros; simpl in *; discriminate.
  - intros remaining start R b e' Hpos -> He Hv. simpl in Hv. injection Hv as ->.
    destruct (fetch_batch_outcome (Delay:=Delay) efetch_parse self start
                (Z.min remaining 500) R)
      as [(we & qk & Hw & Hq & Hev & _ & _) | [Hnone Hb]]; simpl; trace_simpl.
    + right. rewrite Hev. simpl. split; [reflexivity | eauto].
    + left. rewrite Hb in *. simpl in *. injection He as <-. auto.
  - intros remaining start R b rest Hpos -> Hnone IH Hv. simpl in Hv.
    destruct (fetch_batch_outcome (Delay:=Delay) efetch_parse self start
                (Z.min remaining 500) R)
      as [(we & qk & Hw & Hq & Hev & _ & _) | [_ Hb]];
      [|rewrite Hb in Hnone; discriminate].
    right. simpl. trace_simpl. rewrite Hev. simpl. split; [|eauto].
    destruct (IH Hv) as [(_ & _ & [Hn|Hn]) | [Hs _]]; [congruence | congruence |].
    rewrite Hs. reflexivity.
Qed.

(** Every request carries the session of the retriever. *)
Lemma fetch_loop_session remaining start R :
  Forall (fun q => webenv self = Some (req_webenv q) /\
                   query_key self = Some (req_query_key q))
         (efetch_requests (events (loop' remaining start R))).
Proof.
  revert remaining start R.
  apply (fetch_loop_induction efetch_parse self delay
           (fun _ _ _ r =>
              Forall (fun q => webenv self = Some (req_webenv q) /\
                               query_key self = Some (req_query_key q))
                     (efetch_requests (events r)))).
  - constructor.
  - intros remaining start R b e _ -> _. simpl. trace_simpl.
    destruct (fetch_batch_outcome (Delay:=Delay) efetch_parse self start
                (Z.min remaining 500) R)
      as [(we & qk & Hw & Hq & -> & _) | [_ ->]]; simpl;
      repeat constructor; assumption.
  - intros remaining start R b rest _ -> _ IH. simpl. trace_simpl.
    destruct (fetch_batch_outcome (Delay:=Delay) efetch_parse self start
                (Z.min remaining 500) R)
      as [(we & qk & Hw & Hq & -> & _) | [_ ->]]; simpl;
      [constructor; [split; assumption | exact IH] | exact IH].
Qed.

(** X1: in every run of [fetch_all], failed or not, each requested window
    lies inside the range from 0 to e = max(0, min(limit, count)), and at most
    ceil(e / 500) windows are requested. *)
Theorem fetch_all_within_range limit R :
  let e := Z.max 0 (match limit with None => count self | Some l => Z.min l (count self) end) in
  let reqs := efetch_requests (events (fetch_all efetch_parse self limit delay R)) in
  Forall (fun q => 0 <= retstart q /\ retstart q + retmax q <= e) reqs /\
  Z.of_nat (length reqs) <= ceil_div e 500.
Proof.
  unfold fetch_all. cbv zeta. fold (initial_remaining self limit).
  destruct (fetch_loop_bounded (initial_remaining self limit) 0 R) as (Hw & Hn & _).
  split; [|exact Hn].
  eapply Forall_impl; [exact Hw|]. simpl. intros q [H1 H2]. lia.
Qed.

(** X2: when the remote never returns more records than a request asks for,
    [fetch_all] never yields more than e = max(0, min(limit, count)) records,
    whether the run completes or fails. *)
Theorem fetch_all_respects_limit limit R :
  (forall R' req,
      (length (fst (snd (efetch_parse R' req))) <= Z.to_nat (retmax req))%nat) ->
  Z.of_nat (length (yielded (events (fetch_all efetch_parse self limit delay R))))
  <= Z.max 0 (match limit with None => count self | Some l => Z.min l (count self) end).
Proof.
  intros Hmost. unfold fetch_all. cbv zeta. fold (initial_remaining self limit).
  destruct (fetch_loop_bounded (initial_remaining self limit) 0 R) as (_ & _ & Hy).
  apply Hy, Hmost.
Qed.

(** X3: a run of [fetch_all] that had something to fetch and ends without an
    exception finishes with the window that ends exactly at min(limit, count):
    with the contiguity of the windows, the range is covered in full. *)
Theorem fetch_all_reaches_end limit R :
  0 < initial_remaining self limit ->
  value (fetch_all efetch_parse self limit delay R) = None ->
  exists q,
    last (efetch_requests (events (fetch_all efetch_parse self limit delay R))) = Some q /\
    retstart q + retmax q
    = match limit with None => count self | Some l => Z.min l (count self) end.
Proof.
  unfold fetch_all. cbv zeta. intros Hpos Hv.
  destruct (fetch_loop_reaches_end (initial_remaining self limit) 0 R) as [_ Hend].
  destruct (Hend Hpos Hv) as (q & Hq & Hsum).
  exists q. split; [exact Hq|]. rewrite Hsum. reflexivity.
Qed.

(** X4: a run of [fetch_all] that ends with an exception stops at the failing
    batch.  Either the retriever has no session and nothing at all happened
    before the RuntimeError of the guard, or the failing request is the last
    one and is not followed by a sleep: n requests, n - 1 sleeps. *)
Theorem fetch_all_failure_halts limit R e :
  value (fetch_all efetch_parse self limit delay R) = Some e ->
  let evs := events (fetch_all efetch_parse self limit delay R) in
  (evs = [] /\ e = RuntimeError "error" /\
   (webenv self = None \/ query_key self = None))
  \/ (S (sleeps evs) = length (efetch_requests evs) /\
      exists we qk, webenv self = Some we /\ query_key self = Some qk).
Proof.
  unfold fetch_all. cbv zeta. apply fetch_loop_failed.
Qed.

(** X5: [fetch_all] does nothing and raises nothing exactly when
    min(limit, count) is not positive; otherwise it sends a request or raises. *)
Theorem fetch_all_idle_iff limit R :
  fetch_all efetch_parse self limit delay R = Run [] None R
  <-> initial_remaining self limit <= 0.
Proof.
  unfold fetch_all. cbv zeta. split.
  - intros Hrun. destruct (Z_le_gt_dec (initial_remaining self limit) 0) as [|Hpos];
      [assumption|exfalso].
    rewrite fetch_loop_step in Hrun by lia. cbv zeta in Hrun.
    destruct (fetch_batch_outcome (Delay:=Delay) efetch_parse self 0
                (Z.min (initial_remaining self limit) 500) R)
      as [(we & qk & _ & _ & Hev & _ & _) | [_ Hb]].
    + destruct (snd (value (_fetch_batch efetch_parse self 0
                              (Z.min (initial_remaining self limit) 500) R)));
        rewrite Hev in Hrun; discriminate Hrun.
    + rewrite Hb in Hrun. discriminate Hrun.
  - apply fetch_loop_done.
Qed.

(** X6: every request of [fetch_all] carries the WebEnv and the query key
    stored in the retriever. *)
Theorem fetch_all_uses_session limit R :
  Forall (fun q => webenv self = Some (req_webenv q) /\
                   query_key self = Some (req_query_key q))
         (efetch_requests (events (fetch_all efetch_parse self limit delay R))).
Proof.
  unfold fetch_all. cbv zeta. apply fetch_loop_session.
Qed.

End FetchRange.

Lemma faulty_efetch_never_exceeds R' req :
  (length (fst (snd (Faulty.efetch_parse R' req))) <= Z.to_nat (retmax req))%nat.
Proof.
  unfold Faulty.efetch_parse. destruct (Demo.served R' <? 1)%nat; simpl.
  - rewrite length_map, length_seq. lia.
  - rewrite length_firstn, length_map, length_seq. lia.
Qed.

Lemma fetch_all_respects_limit_witness :
  (forall R' req,
      (length (fst (snd (Faulty.efetch_parse R' req))) <= Z.to_nat (retmax req))%nat) /\
  Z.of_nat (length (yielded (events (fetch_all Faulty.efetch_parse (Demo.searched 1200)
                                       (Some 700) Demo.default_delay Demo.R0))))
  <= Z.max 0 (Z.min 700 1200).
Proof.
  split; [exact faulty_efetch_never_exceeds|].
  apply (fetch_all_respects_limit Faulty.efetch_parse (Demo.searched 1200)
           Demo.default_delay (Some 700) Demo.R0).
  exact faulty_efetch_never_exceeds.
Defined.

Lemma fetch_all_reaches_end_witness :
  0 < initial_remaining (Demo.searched 1200) (Some 700) /\
  value (fetch_all Demo.efetch_parse (Demo.searched 1200) (Some 700)
           Demo.default_delay Demo.R0) = None /\
  exists q,
    last (efetch_requests (events (fetch_all Demo.efetch_parse (Demo.searched 1200)
                                     (Some 700) Demo.default_delay Demo.R0))) = Some q /\
    retstart q + retmax q = Z.min 700 1200.
Proof.
  split; [reflexivity|]. split; [vm_compute; reflexivity|].
  apply (fetch_all_reaches_end Demo.efetch_parse (Demo.searched 1200)
           Demo.default_delay (Some 700) Demo.R0);
    [reflexivity | vm_compute; reflexivity].
Defined.

Lemma fetch_all_failure_halts_witness :
  let r := fetch_all Faulty.efetch_parse (Demo.searched 1200) None
             Demo.default_delay Demo.R0 in
  value r = Some (EntrezError "HTTP Error 429") /\
  ((events r = [] /\ EntrezError "HTTP Error 429" = RuntimeError "error" /\
    (webenv (Demo.searched 1200) = None \/ query_key (Demo.searched 1200) = None))
   \/ (S (sleeps (events r)) = length (efetch_requests (events r)) /\
       exists we qk, webenv (Demo.searched 1200) = Some we /\
                     query_key (Demo.searched 1200) = Some qk)).
Proof.
  split; [vm_compute; reflexivity|].
  apply (fetch_all_failure_halts Faulty.efetch_parse (Demo.searched 1200)
           Demo.default_delay None Demo.R0).
  vm_compute; reflexivity.
Defined.

(** The failing run: 500 records of the first batch, one of the second, then
    the exception; two requests and one sleep.  A retriever without its query
    key fails before anything is sent. *)
Example fetch_all_second_batch_fails :
  let r := fetch_all Faulty.efetch_parse (Demo.searched 1200) None
             Demo.default_delay Demo.R0 in
  map window (efetch_requests (events r)) = [(0, 500); (500, 500)] /\
  sleeps (events r) = 1%nat /\ length (yielded (events r)) = 501%nat.
Proof. vm_compute. repeat split; reflexivity. Qed.

Example fetch_all_half_session :
  fetch_all Demo.efetch_parse (Faulty.half_session 1200) None Demo.default_delay Demo.R0
  = Run [] (Some (RuntimeError "error")) Demo.R0.
Proof. vm_compute. reflexivity. Qed.

(** ** The retriever after [search] *)

Section SearchState.
Context {Delay Remote : Type}.
Variable esearch_read : Remote -> string -> Remote * result (gmap string string).
Variable efetch_parse : Remote -> efetch_request -> Remote * (list SeqRecord * option exn).

Lemma search_value self taxid min_len max_len R :
  value (search (Delay:=Delay) esearch_read self taxid min_len max_len R) =
    match snd (esearch_read R (build_query taxid min_len max_len)) with
    | Raise e => (self, Raise e)
    | Ok res => store_session self res
    end.
Proof.
  unfold search.
  destruct (esearch_read R (build_query taxid min_len max_len)) as [R1 [res|e]];
    reflexivity.
Qed.

(** X7: when [search] returns n, the retriever holds the WebEnv and the query
    key of the reply and the count n, whatever it held before, and every
    request of a later [fetch_all] carries that WebEnv and query key. *)
Theorem search_establishes_session self taxid min_len max_len R n :
  snd (value (search (Delay:=Delay) esearch_read self taxid min_len max_len R)) = Ok n ->
  exists res we qk,
    snd (esearch_read R (build_query taxid min_len max_len)) = Ok res /\
    res !! "WebEnv" = Some we /\ res !! "QueryKey" = Some qk /\
    fst (value (search (Delay:=Delay) esearch_read self taxid min_len max_len R))
    = {| webenv := Some we; query_key := Some qk; count := n |} /\
    forall limit (delay : Delay) R',
      Forall (fun q => req_webenv q = we /\ req_query_key q = qk)
        (efetch_requests
           (events (fetch_all efetch_parse
                      (fst (value (search (Delay:=Delay) esearch_read self taxid
                                     min_len max_len R)))
                      limit delay R'))).
Proof.
  rewrite search_value.
  destruct (snd (esearch_read R (build_query taxid min_len max_len))) as [res|e];
    [|discriminate].
  unfold store_session.
  destruct (res !! "WebEnv") as [we|] eqn:Hw; [|discriminate].
  destruct (res !! "QueryKey") as [qk|] eqn:Hq; [|discriminate].
  destruct (res !! "Count") as [c|] eqn:Hc; [|discriminate].
  destruct (Py.int c) as [m|] eqn:Hint; [|discriminate].
  simpl. intros [= <-]. exists res, we, qk. repeat split; auto.
  intros limit delay R'.
  unfold fetch_all. cbv zeta.
  eapply Forall_impl; [apply fetch_loop_session|].
  simpl. intros q [[= ->] [= ->]]. auto.
Qed.

(** X8: a failed [search] is not undone.  The count is never touched; the
    retriever is unchanged when the call raises or the reply has no WebEnv;
    it keeps the new WebEnv when the query key is missing, and the new WebEnv
    and query key when the count is missing or is no integer (ValueError). *)
Theorem search_failure_state self taxid min_len max_len R :
  let reply := snd (esearch_read R (build_query taxid min_len max_len)) in
  let s := value (search (Delay:=Delay) esearch_read self taxid min_len max_len R) in
  (forall e, snd s = Raise e -> count (fst s) = count self) /\
  (forall e, reply = Raise e -> fst s = self) /\
  (forall res, reply = Ok res -> res !! "WebEnv" = None -> fst s = self) /\
  (forall res we,
      reply = Ok res -> res !! "WebEnv" = Some we -> res !! "QueryKey" = None ->
      fst s = {| webenv := Some we; query_key := query_key self; count := count self |}) /\
  (forall res we qk,
      reply = Ok res -> res !! "WebEnv" = Some we -> res !! "QueryKey" = Some qk ->
      res !! "Count" = None ->
      s = ({| webenv := Some we; query_key := Some qk; count := count self |},
           Raise (KeyError "Count"))) /\
  (forall res we qk c,
      reply = Ok res -> res !! "WebEnv" = Some we -> res !! "QueryKey" = Some qk ->
      res !! "Count" = Some c -> Py.int c = None ->
      s = ({| webenv := Some we; query_key := Some qk; count := count self |},
           Raise ValueError)).
Proof.
  cbv zeta. rewrite search_value.
  split; [|split; [|split; [|split; [|split]]]].
  - intros e.
    destruct (snd (esearch_read R (build_query taxid min_len max_len))) as [res|e'];
      [|reflexivity].
    unfold store_session.
    destruct (res !! "WebEnv"); [|reflexivity].
    destruct (res !! "QueryKey"); [|reflexivity].
    destruct (res !! "Count") as [c|]; [|reflexivity].
    destruct (Py.int c); [discriminate | reflexivity].
  - intros e ->. reflexivity.
  - intros res -> Hw. unfold store_session. rewrite Hw. reflexivity.
  - intros res we -> Hw Hq. unfold store_session. rewrite Hw, Hq. reflexivity.
  - intros res we qk -> Hw Hq Hc. unfold store_session. rewrite Hw, Hq, Hc. reflexivity.
  - intros res we qk c -> Hw Hq Hc Hi. unfold store_session.
    rewrite Hw, Hq, Hc, Hi. reflexivity.
Qed.

End SearchState.

Lemma search_establishes_session_witness :
  let s := search (Delay:=Demo.delay) Demo.esearch_read Demo.fresh "9606" None None Demo.R0 in
  snd (value s) = Ok 1200 /\
  exists res we qk,
    snd (Demo.esearch_read Demo.R0 (build_query "9606" None None)) = Ok res /\
    res !! "WebEnv" = Some we /\ res !! "QueryKey" = Some qk /\
    fst (value s) = {| webenv := Some we; query_key := Some qk; count := 1200 |} /\
    forall limit (delay : Demo.delay) R',
      Forall (fun q => req_webenv q = we /\ req_query_key q = qk)
        (efetch_requests
           (events (fetch_all Demo.efetch_parse (fst (value s)) limit delay R'))).
Proof.
  split; [vm_compute; reflexivity|].
  apply (search_establishes_session Demo.esearch_read Demo.efetch_parse
           Demo.fresh "9606" None None Demo.R0 1200).
  vm_compute; reflexivity.
Defined.

(** A second search whose reply has a count that is no number: the session
    of the reply is stored, the old count stays. *)
Example search_bad_count :
  value (search (Delay:=Demo.delay) Faulty.esearch_bad_count (Demo.searched 7)
           "9606" None None Demo.R0)
  = ({| webenv := Some "MCID_demo"; query_key := Some "1"; count := 7 |},
     Raise ValueError).
Proof. vm_compute. reflexivity. Qed.

(** ** More on [main]: exit status, files, exceptions *)

Section MainOutcome.
Context {Delay Remote : Type}.
Variable default_delay : Delay.
Variable esearch_read : Remote -> string -> Remote * result (gmap string string).
Variable efetch_parse : Remote -> efetch_request -> Remote * (list SeqRecord * option exn).
Variable write_error : string -> file_content -> option exn.

Abbreviation main_run inp timestamp R :=
  (main default_delay esearch_read efetch_parse write_error inp timestamp R).
Abbreviation search_run inp R := (main_search (Delay:=Delay) esearch_read inp R).
Abbreviation fetch_run inp R :=
  (main_fetch default_delay esearch_read efetch_parse inp R).
Abbreviation csv_error inp timestamp R :=
  (write_error (output_prefix inp timestamp +:+ ".csv")
     (CsvFile (csv_rows (yielded (events (fetch_run inp R)))))).
Abbreviation png_error inp timestamp R :=
  (write_error (output_prefix inp timestamp +:+ ".png")
     (PngFile (length_chart (yielded (events (fetch_run inp R)))))).

(** X9: the exit status of the process is 0 or 1, and it is 0 exactly when
    the search found nothing, or the retrieval completed with at least one
    record and the writing of both files succeeded. *)
Theorem main_exit_status inp timestamp R :
  let r := main_run inp timestamp R in
  (exit_status (value r) = 0 \/ exit_status (value r) = 1) /\
  (exit_status (value r) = 0 <->
   snd (value (search_run inp R)) = Ok 0 \/
   (exists total, snd (value (search_run inp R)) = Ok total /\ total <> 0 /\
                  value (fetch_run inp R) = None /\
                  yielded (events (fetch_run inp R)) <> [] /\
                  csv_error inp timestamp R = None /\
                  png_error inp timestamp R = None)).
Proof.
  cbv zeta. rewrite main_unfold. cbv zeta.
  set (before := main_prelude esearch_read inp R).
  set (f := main_fetch default_delay esearch_read efetch_parse inp R).
  set (s := main_search esearch_read inp R).
  clearbody before f s.
  destruct (snd (value s)) as [total|e]; simpl.
  - destruct (Z.eqb_spec total 0) as [->|Hne]; simpl.
    + split; [auto|]. split; auto.
    + destruct (value f) as [e|]; simpl.
      * split; [auto|]. split; [discriminate|].
        intros [[= ?]|(t & _ & _ & ? & _)]; [contradiction | discriminate].
      * destruct (yielded (events f)) as [|rec recs]; simpl.
        -- split; [auto|]. split; [discriminate|].
           intros [[= ?]|(t & _ & _ & _ & ? & _)]; contradiction.
        -- destruct (write_error _ (CsvFile _)) as [e1|]; simpl.
           ++ split; [auto|]. split; [discriminate|].
              intros [[= ?]|(t & _ & _ & _ & _ & ? & _)]; [contradiction | discriminate].
           ++ destruct (write_error _ (PngFile _)) as [e2|]; simpl.
              ** split; [auto|]. split; [discriminate|].
                 intros [[= ?]|(t & _ & _ & _ & _ & _ & ?)];
                   [contradiction | discriminate].
              ** split; [auto|]. split; [|reflexivity].
                 intros _. right. exists total. repeat split; auto; discriminate.
  - split; [auto|]. split; [discriminate|].
    intros [?|(t & ? & _)]; discriminate.
Qed.

(** X10: [main] writes its files in order and reports what it wrote.  The
    files written in full are none, the CSV file alone, or the CSV file and
    then the chart; both exactly when [main] returns normally; the CSV file
    alone exactly when the writing of the chart raised, and then that
    exception escapes; none when the run ends by [sys.exit]. *)
Theorem main_files_written inp timestamp R :
  let r := main_run inp timestamp R in
  let csv_file := output_prefix inp timestamp +:+ ".csv" in
  let png_file := output_prefix inp timestamp +:+ ".png" in
  (files_written (events r) = [] \/ files_written (events r) = [csv_file] \/
   files_written (events r) = [csv_file; png_file]) /\
  (value r = Returned <-> files_written (events r) = [csv_file; png_file]) /\
  (files_written (events r) = [csv_file] ->
   exists e, value r = Uncaught e /\ png_error inp timestamp R = Some e) /\
  (forall code, value r = SystemExit code -> files_written (events r) = []).
Proof.
  cbv zeta. rewrite main_unfold. cbv zeta.
  destruct (main_prelude_quiet (Delay:=Delay) esearch_read inp R) as [Hfiles _].
  assert (files_written
            (events (main_fetch default_delay esearch_read efetch_parse inp R)) = [])
    as Hfetch by apply fetch_loop_writes_nothing.
  set (before := main_prelude esearch_read inp R) in *.
  set (f := main_fetch default_delay esearch_read efetch_parse inp R) in *.
  set (s := main_search esearch_read inp R).
  clearbody before f s.
  destruct (snd (value s)) as [total|e]; simpl.
  - destruct (total =? 0); simpl.
    + rewrite files_written_app, Hfiles. simpl.
      repeat split; auto; discriminate.
    + destruct (value f) as [e|]; simpl.
      * rewrite files_written_app, Hfiles, Hfetch. simpl.
        repeat split; auto; discriminate.
      * destruct (yielded (events f)) as [|rec recs]; simpl.
        -- rewrite !files_written_app, Hfiles, Hfetch. simpl.
           repeat split; auto; discriminate.
        -- destruct (write_error _ (CsvFile _)) as [e1|]; simpl.
           ++ rewrite !files_written_app, Hfiles, Hfetch. simpl.
              repeat split; auto; discriminate.
           ++ destruct (write_error _ (PngFile _)) as [e2|]; simpl;
                rewrite !files_written_app, Hfiles, Hfetch; simpl.
              ** repeat split; auto; try discriminate. eauto.
              ** repeat split; auto; discriminate.
  - rewrite Hfiles. repeat split; auto; discriminate.
Qed.

(** X11: nothing in [main] handles an exception.  One raised by the search
    escapes before any request for records; one raised by the retrieval
    escapes after it, and then the records already received are dropped:
    no report, no chart, no message. *)
Theorem main_exception_escapes inp timestamp R :
  let r := main_run inp timestamp R in
  (forall e,
      snd (value (search_run inp R)) = Raise e ->
      r = Run (main_prelude esearch_read inp R) (Uncaught e)
            (remote_after (search_run inp R)) /\
      efetch_requests (events r) = []) /\
  (forall total e,
      snd (value (search_run inp R)) = Ok total -> total <> 0 ->
      value (fetch_run inp R) = Some e ->
      r = Run (main_prelude esearch_read inp R ++ events (fetch_run inp R))
            (Uncaught e) (remote_after (fetch_run inp R))).
Proof.
  cbv zeta. rewrite main_unfold. cbv zeta.
  destruct (main_prelude_quiet (Delay:=Delay) esearch_read inp R) as [_ Hreqs].
  split.
  - intros e ->. split; [reflexivity | exact Hreqs].
  - intros total e -> Hne ->. apply Z.eqb_neq in Hne. rewrite Hne. reflexivity.
Qed.

End MainOutcome.

(** A run of [main] in which the retrieval fails after a record was
    received: nothing is reported. *)
Example main_retrieval_fails :
  let r := main Demo.default_delay Demo.esearch_read Faulty.efetch_parse Demo.write_error
             (mkInput "a@b.c" "key" "9606" "" "" "") "20250101_120000" Demo.R0 in
  value r = Uncaught (EntrezError "HTTP Error 429") /\
  length (yielded (events r)) = 1%nat /\ files_written (events r) = [].
Proof. vm_compute. repeat split; reflexivity. Qed.

(** ** Decimal strings: [int] reads back what [str] writes *)

Lemma parse_digits_acc d (acc : positive) :
  Py.parse_digits (NilEmpty.string_of_uint d) true (Z.pos acc)
  = Some (Z.pos (Pos.of_uint_acc d acc)).
Proof.
  revert acc. induction d as [|d IH|d IH|d IH|d IH|d IH|d IH|d IH|d IH|d IH|d IH];
    intros acc; [reflexivity|..];
    cbn [NilEmpty.string_of_uint Py.parse_digits Pos.of_uint_acc];
    change (Py.digit_of _) with (Some 0) || change (Py.digit_of _) with (Some 1)
    || change (Py.digit_of _) with (Some 2) || change (Py.digit_of _) with (Some 3)
    || change (Py.digit_of _) with (Some 4) || change (Py.digit_of _) with (Some 5)
    || change (Py.digit_of _) with (Some 6) || change (Py.digit_of _) with (Some 7)
    || change (Py.digit_of _) with (Some 8) || change (Py.digit_of _) with (Some 9);
    cbv iota; rewrite <- IH; f_equal; lia.
Qed.

Lemma parse_digits_uint d b :
  d <> Decimal.Nil \/ b = true ->
  Py.parse_digits (NilEmpty.string_of_uint d) b 0 = Some (Z.of_N (Pos.of_uint d)).
Proof.
  revert b. induction d as [|d IH|d IH|d IH|d IH|d IH|d IH|d IH|d IH|d IH|d IH];
    intros b Hb.
  - destruct Hb as [Hb| ->]; [contradiction | reflexivity].
  - cbn [NilEmpty.string_of_uint Py.parse_digits Pos.of_uint].
    change (Py.digit_of _) with (Some 0). cbv iota.
    apply IH. auto.
  - apply (parse_digits_acc d 1).
  - apply (parse_digits_acc d 2).
  - apply (parse_digits_acc d 3).
  - apply (parse_digits_acc d 4).
  - apply (parse_digits_acc d 5).
  - apply (parse_digits_acc d 6).
  - apply (parse_digits_acc d 7).
  - apply (parse_digits_acc d 8).
  - apply (parse_digits_acc d 9).
Qed.

Lemma rstrip_digits d :
  Py.rstrip (NilEmpty.string_of_uint d) = NilEmpty.string_of_uint d.
Proof.
  induction d as [|d IH|d IH|d IH|d IH|d IH|d IH|d IH|d IH|d IH|d IH];
    [reflexivity|..];
    cbn [NilEmpty.string_of_uint Py.rstrip]; rewrite IH;
    destruct (NilEmpty.string_of_uint d); reflexivity.
Qed.

Lemma strip_digits d :
  Py.strip (NilEmpty.string_of_uint d) = NilEmpty.string_of_uint d.
Proof.
  unfold Py.strip.
  assert (Py.lstrip (NilEmpty.string_of_uint d) = NilEmpty.string_of_uint d) as ->
    by (destruct d; reflexivity).
  apply rstrip_digits.
Qed.

Lemma rskip_digits d :
  Py.rskip (NilEmpty.string_of_uint d) = NilEmpty.string_of_uint d.
Proof.
  induction d as [|d IH|d IH|d IH|d IH|d IH|d IH|d IH|d IH|d IH|d IH];
    [reflexivity|..];
    cbn [NilEmpty.string_of_uint Py.rskip]; rewrite IH;
    destruct (NilEmpty.string_of_uint d); reflexivity.
Qed.

Lemma skip_digits d :
  Py.rskip (Py.lskip (NilEmpty.string_of_uint d)) = NilEmpty.string_of_uint d.
Proof.
  assert (Py.lskip (NilEmpty.string_of_uint d) = NilEmpty.string_of_uint d) as ->
    by (destruct d; reflexivity).
  apply rskip_digits.
Qed.

Lemma literal_digits d :
  d <> Decimal.Nil ->
  Py.literal (NilEmpty.string_of_uint d) = Some (Z.of_N (Pos.of_uint d)).
Proof.
  intros Hd. rewrite <- (parse_digits_uint d false) by auto.
  destruct d; [contradiction|reflexivity..].
Qed.

Lemma str_pos p : Py.str (Z.pos p) = NilEmpty.string_of_uint (Pos.to_uint p).
Proof.
  unfold Py.str. simpl. unfold NilZero.string_of_uint.
  pose proof (DecimalPos.Unsigned.to_uint_nonnil p).
  destruct (Pos.to_uint p); [contradiction|reflexivity..].
Qed.

Lemma str_neg p :
  Py.str (Z.neg p) = String "-" (NilEmpty.string_of_uint (Pos.to_uint p)).
Proof.
  unfold Py.str. simpl. unfold NilZero.string_of_uint.
  pose proof (DecimalPos.Unsigned.to_uint_nonnil p).
  destruct (Pos.to_uint p); [contradiction|reflexivity..].
Qed.

Lemma strip_str n : Py.strip (Py.str n) = Py.str n.
Proof.
  destruct n as [|p|p]; [reflexivity | rewrite str_pos; apply strip_digits |].
  rewrite str_neg. unfold Py.strip.
  change (Py.lstrip (String "-" ?s)) with (String "-" s).
  cbn [Py.rstrip]. rewrite rstrip_digits.
  pose proof (DecimalPos.Unsigned.to_uint_nonnil p).
  destruct (Pos.to_uint p); [contradiction|reflexivity..].
Qed.

Lemma skip_str n : Py.rskip (Py.lskip (Py.str n)) = Py.str n.
Proof.
  destruct n as [|p|p]; [reflexivity | rewrite str_pos; apply skip_digits |].
  rewrite str_neg.
  change (Py.lskip (String "-" ?s)) with (String "-" s).
  cbn [Py.rskip]. rewrite rskip_digits.
  pose proof (DecimalPos.Unsigned.to_uint_nonnil p).
  destruct (Pos.to_uint p); [contradiction|reflexivity..].
Qed.

(** The decimal form of an integer denotes that integer. *)
Lemma literal_str n : Py.literal (Py.str n) = Some n.
Proof.
  destruct n as [|p|p]; [reflexivity | |].
  - rewrite str_pos, literal_digits by apply DecimalPos.Unsigned.to_uint_nonnil.
    rewrite DecimalPos.Unsigned.of_to. reflexivity.
  - rewrite str_neg. cbn [Py.literal].
    rewrite parse_digits_uint by (left; apply DecimalPos.Unsigned.to_uint_nonnil).
    rewrite DecimalPos.Unsigned.of_to. reflexivity.
Qed.

(** [int(str(n)) == n], for an integer within the digit limit. *)
Lemma int_str n :
  (Py.count_digits (Py.str n) <= Py.max_str_digits)%nat ->
  Py.int (Py.str n) = Some n.
Proof.
  intros Hdigits. unfold Py.int. cbv zeta. rewrite skip_str.
  destruct (Nat.ltb_spec Py.max_str_digits (Py.count_digits (Py.str n)));
    [lia | apply literal_str].
Qed.

Lemma str_nonempty n : Py.str n <> EmptyString.
Proof.
  intros H. pose proof (literal_str n) as Hi. rewrite H in Hi. discriminate.
Qed.

(** ** Whitespace around an answer *)

Lemma blank_cons c s : blank (String c s) -> Py.is_space c = true /\ blank s.
Proof.
  intros H. split; [apply H; left; reflexivity|].
  intros c' Hc. apply H. right. exact Hc.
Qed.

Lemma lstrip_blank s : blank s -> Py.lstrip s = EmptyString.
Proof.
  induction s as [|c s IH]; intros H; [reflexivity|].
  apply blank_cons in H as [Hc Hs]. simpl. rewrite Hc. auto.
Qed.

Lemma rstrip_blank s : blank s -> Py.rstrip s = EmptyString.
Proof.
  induction s as [|c s IH]; intros H; [reflexivity|].
  apply blank_cons in H as [Hc Hs]. simpl. rewrite IH, Hc by assumption. reflexivity.
Qed.

Lemma strip_blank s : blank s -> Py.strip s = EmptyString.
Proof. intros H. unfold Py.strip. rewrite lstrip_blank by assumption. reflexivity. Qed.

Lemma rstrip_app_blank s ws : blank ws -> Py.rstrip (s +:+ ws) = Py.rstrip s.
Proof.
  intros H. induction s as [|c s IH]; simpl.
  - apply rstrip_blank, H.
  - change (String.append s ws) with (s +:+ ws). rewrite IH. reflexivity.
Qed.

Lemma strip_padded ws1 s ws2 :
  blank ws1 -> blank ws2 -> Py.strip (ws1 +:+ s +:+ ws2) = Py.strip s.
Proof.
  intros H1 H2. unfold Py.strip.
  induction ws1 as [|c ws1 IH].
  - clear H1. simpl. induction s as [|c s IHs]; simpl.
    + rewrite lstrip_blank by assumption. reflexivity.
    + destruct (Py.is_space c); [exact IHs|].
      apply (rstrip_app_blank (String c s) ws2 H2).
  - apply blank_cons in H1 as [Hc Hs]. simpl. rewrite Hc. apply IH, Hs.
Qed.

Section PromptInt.
Context {Delay : Type}.

(** X12: an answer of whitespace only, the empty line included, gives None
    without the warning: only the prompt is shown. *)
Theorem prompt_int_blank msg typed :
  blank typed -> prompt_int (Delay:=Delay) msg typed = ([Prompt msg], None).
Proof.
  intros H. unfold prompt_int. rewrite strip_blank by assumption. reflexivity.
Qed.

(** X13: the decimal form of an integer of at most 4300 digits, negative
    ones included, with any whitespace around it, is read back as that
    integer, without the warning. *)
Theorem prompt_int_reads_integer msg ws1 ws2 n :
  blank ws1 -> blank ws2 ->
  (Py.count_digits (Py.str n) <= Py.max_str_digits)%nat ->
  prompt_int (Delay:=Delay) msg (ws1 +:+ Py.str n +:+ ws2) = ([Prompt msg], Some n).
Proof.
  intros H1 H2 Hdigits. unfold prompt_int.
  rewrite strip_padded, strip_str by assumption.
  destruct (String.eqb_spec (Py.str n) EmptyString) as [He|_].
  - destruct (str_nonempty n He).
  - rewrite int_str by assumption. reflexivity.
Qed.

End PromptInt.

Lemma blank_demo : blank (String " " (String (ascii_of_nat 9) EmptyString)).
Proof. intros c [<-|[<-|[]]]; reflexivity. Qed.

Lemma prompt_int_blank_witness :
  blank (String " " (String (ascii_of_nat 9) EmptyString)) /\
  prompt_int (Delay:=Demo.delay) "Minimal sequence length "
    (String " " (String (ascii_of_nat 9) EmptyString))
  = ([Prompt "Minimal sequence length "], None).
Proof.
  split; [exact blank_demo|].
  apply (prompt_int_blank "Minimal sequence length "
           (String " " (String (ascii_of_nat 9) EmptyString))).
  exact blank_demo.
Defined.

Lemma prompt_int_reads_integer_witness :
  blank (String " " (String (ascii_of_nat 9) EmptyString)) /\
  blank EmptyString /\
  (Py.count_digits (Py.str (-500)) <= Py.max_str_digits)%nat /\
  prompt_int (Delay:=Demo.delay) "Maximum records to download "
    (String " " (String (ascii_of_nat 9) EmptyString) +:+ Py.str (-500) +:+ EmptyString)
  = ([Prompt "Maximum records to download "], Some (-500)).
Proof.
  split; [exact blank_demo|]. split; [intros c []|].
  split; [vm_compute; lia|].
  apply (prompt_int_reads_integer "Maximum records to download "
           (String " " (String (ascii_of_nat 9) EmptyString)) EmptyString (-500)).
  - exact blank_demo.
  - intros c [].
  - vm_compute; lia.
Defined.

(** [int] stops at 4300 digits and skips less whitespace than [str.strip]
    removes. *)
Example int_refuses :
  Py.int (string_of_list_ascii (repeat "1"%char 4301)) = None /\
  Py.int (String "-" (string_of_list_ascii (repeat "0"%char 4301))) = None /\
  Py.int (String (ascii_of_nat 28) "5") = None /\
  Py.int (String (ascii_of_nat 11) "5") = Some 5 /\
  prompt_int (Delay:=Demo.delay) "Maximum records to download "
    (String "-" (string_of_list_ascii (repeat "1"%char 4301)))
  = ([Prompt "Maximum records to download ";
      Print "Wartość musi być liczbą całkowitą"], None).
Proof. vm_compute. repeat split; reflexivity. Qed.

(** An answer that is no integer gives None with the warning. *)
Example prompt_int_warns :
  prompt_int (Delay:=Demo.delay) "Minimal sequence length " "12a"
  = ([Prompt "Minimal sequence length ";
      Print "Wartość musi być liczbą całkowitą"], None).
Proof. reflexivity. Qed.

(** ** More on the report and the chart *)

(** X14: every row of the report has three fields, and the row of a record
    carries its accession and description unchanged and a Length field that
    is the decimal literal of the length of its sequence, which [int] reads
    back whenever it has no more than 4300 digits. *)
Theorem write_csv_readable (Delay : Type)
  (write_error : string -> file_content -> option exn)
  (records : list SeqRecord) (path : string) :
  exists rows,
    write_csv (Delay:=Delay) write_error records path
    = match write_error path (CsvFile rows) with
      | None => ([WriteFile path (CsvFile rows)], None)
      | Some e => ([], Some e)
      end /\
    Forall (fun row => length row = 3%nat) rows /\
    (forall (i : nat) r,
        records !! i = Some r ->
        exists len,
          rows !! S i = Some [id r; len; description r] /\
          Py.literal len = Some (Z.of_nat (String.length (seq r))) /\
          ((Py.count_digits len <= Py.max_str_digits)%nat ->
           Py.int len = Some (Z.of_nat (String.length (seq r))))).
Proof.
  exists (csv_rows records). split; [reflexivity|]. split.
  - unfold csv_rows. constructor; [reflexivity|].
    apply Forall_forall. intros row Hrow.
    apply list_elem_of_fmap in Hrow as (r & -> & _). reflexivity.
  - intros i r Hi. exists (Py.str (seq_len r)). split.
    + unfold csv_rows. simpl. change (map csv_record_row records !! i)
        with ((csv_record_row <$> records) !! i).
      rewrite list_lookup_fmap, Hi. reflexivity.
    + split; [apply literal_str | apply int_str].
Qed.

Lemma zip_map_pair {A B C} (f : A -> B) (g : A -> C) (l : list A) :
  zip (map f l) (map g l) = map (fun x => (f x, g x)) l.
Proof. induction l as [|x l IH]; simpl; [reflexivity | rewrite IH; reflexivity]. Qed.

(** X15: the chart has one point per record: the accessions and the lengths
    are as many as the records, and paired position by position they are the
    (accession, length) pairs of the records, each record once. *)
Theorem plot_lengths_points (Delay : Type)
  (write_error : string -> file_content -> option exn)
  (records : list SeqRecord) (path : string) :
  exists c,
    plot_lengths (Delay:=Delay) write_error records path
    = match write_error path (PngFile c) with
      | None => ([WriteFile path (PngFile c)], None)
      | Some e => ([], Some e)
      end /\
    length (chart_x c) = length records /\
    length (chart_y c) = length records /\
    Permutation (zip (chart_x c) (chart_y c))
                (map (fun r => (id r, seq_len r)) records).
Proof.
  exists (length_chart records). split; [reflexivity|]. simpl.
  pose proof (sorted_reverse_Permutation seq_len records) as Hp.
  rewrite !length_map. fold (plot_order records).
  split; [apply Permutation_length, Hp|].
  split; [apply Permutation_length, Hp|].
  rewrite zip_map_pair. apply Permutation_map, Hp.
Qed.

Lemma sorted_reverse_fixes_descending {A} (key : A -> Z) (l : list A) :
  StronglySorted (fun a b => key a >= key b) l -> sorted_reverse key l = l.
Proof.
  induction l as [|x l IH]; intros Hs; [reflexivity|].
  apply StronglySorted_inv in Hs as [Hl Hx]. simpl. rewrite IH by assumption.
  destruct l as [|y l]; [reflexivity|]. simpl.
  apply Forall_cons in Hx as [Hy _].
  destruct (Z.ltb_spec (key x) (key y)); [lia | reflexivity].
Qed.

(** X16: records that already come in non-increasing order of length are
    plotted in the order given. *)
Theorem plot_order_keeps_descending (records : list SeqRecord) :
  StronglySorted (fun a b => seq_len a >= seq_len b) records ->
  plot_order records = records.
Proof. apply sorted_reverse_fixes_descending. Qed.

Lemma plot_order_keeps_descending_witness :
  StronglySorted (fun a b => seq_len a >= seq_len b)
    [mkSeqRecord "B" "ACGTT" "b"; mkSeqRecord "A" "ACG" "a"; mkSeqRecord "C" "TTT" "c"] /\
  plot_order
    [mkSeqRecord "B" "ACGTT" "b"; mkSeqRecord "A" "ACG" "a"; mkSeqRecord "C" "TTT" "c"]
  = [mkSeqRecord "B" "ACGTT" "b"; mkSeqRecord "A" "ACG" "a"; mkSeqRecord "C" "TTT" "c"].
Proof.
  assert (StronglySorted (fun a b => seq_len a >= seq_len b)
            [mkSeqRecord "B" "ACGTT" "b"; mkSeqRecord "A" "ACG" "a";
             mkSeqRecord "C" "TTT" "c"]) as Hs.
  { repeat constructor; vm_compute; discriminate. }
  split; [exact Hs|].
  apply (plot_order_keeps_descending
           [mkSeqRecord "B" "ACGTT" "b"; mkSeqRecord "A" "ACG" "a";
            mkSeqRecord "C" "TTT" "c"]).
  exact Hs.
Defined.

(** ** Pacing of the requests *)

Section Pacing.
Context {Delay Remote : Type}.
Variable efetch_parse : Remote -> efetch_request -> Remote * (list SeqRecord * option exn).

Lemma paced_Yield rested (recs : list SeqRecord) (evs : list (event Delay)) :
  paced rested (map Yield recs ++ evs) = paced rested evs.
Proof. induction recs as [|r recs IH]; simpl; auto. Qed.

Lemma fetch_loop_paced self delay remaining start R :
  paced true (events (fetch_loop (Delay:=Delay) efetch_parse self delay remaining start R))
  = true.
Proof.
  revert remaining start R.
  apply (fetch_loop_induction efetch_parse self delay
           (fun _ _ _ r => paced true (events r) = true)).
  - reflexivity.
  - intros remaining start R b e _ -> _. simpl.
    destruct (fetch_batch_outcome (Delay:=Delay) efetch_parse self start
                (Z.min remaining 500) R)
      as [(we & qk & _ & _ & -> & _) | [_ ->]]; simpl.
    + rewrite <- (app_nil_r (map Yield _)). apply paced_Yield.
    + reflexivity.
  - intros remaining start R b rest _ -> Hnone IH. simpl.
    destruct (fetch_batch_outcome (Delay:=Delay) efetch_parse self start
                (Z.min remaining 500) R)
      as [(we & qk & _ & _ & -> & _) | [_ Hb]]; simpl.
    + rewrite paced_Yield. simpl. exact IH.
    + rewrite Hb in Hnone. discriminate.
Qed.

(** X17: [fetch_all] never sends two requests without a sleep in between:
    in every run, each request after the first comes after a call of
    [time.sleep] made since the request before it. *)
Theorem fetch_all_paced self limit (delay : Delay) R :
  paced true (events (fetch_all efetch_parse self limit delay R)) = true.
Proof. unfold fetch_all. cbv zeta. apply fetch_loop_paced. Qed.

End Pacing.

(** Two requests in a row are what [paced] rules out. *)
Example paced_rejects_back_to_back :
  paced (Delay:=Demo.delay) true
    [Efetch (mkEfetch 0 500 "w" "1"); Yield (Demo.record_at 0);
     Efetch (mkEfetch 500 500 "w" "1")] = false.
Proof. reflexivity. Qed.

(** ** The limit typed by the user *)

Section MainLimit.
Context {Delay Remote : Type}.
Variable default_delay : Delay.
Variable esearch_read : Remote -> string -> Remote * result (gmap string string).
Variable efetch_parse : Remote -> efetch_request -> Remote * (list SeqRecord * option exn).

(** X18: when the user answers the last prompt with an integer n of at most
    4300 digits, with any whitespace around it, and the remote never returns
    more records than a request asks for, the retrieval of [main] yields at
    most max(0, n) records, so the report has at most that many data rows. *)
Theorem main_limit_honoured inp R ws1 ws2 n :
  typed_max_records inp = ws1 +:+ Py.str n +:+ ws2 ->
  blank ws1 -> blank ws2 ->
  (Py.count_digits (Py.str n) <= Py.max_str_digits)%nat ->
  (forall R' req,
      (length (fst (snd (efetch_parse R' req))) <= Z.to_nat (retmax req))%nat) ->
  Z.of_nat (length (yielded (events (main_fetch default_delay esearch_read efetch_parse
                                       inp R))))
  <= Z.max 0 n.
Proof.
  intros Htyped H1 H2 Hdigits Hmost. unfold main_fetch, fetch_all. cbv zeta.
  assert (snd (prompt_int (Delay:=Delay) "Maximum records to download "
                 (typed_max_records inp)) = Some n) as ->.
  { unfold prompt_int. rewrite Htyped, strip_padded, strip_str by assumption.
    destruct (String.eqb_spec (Py.str n) EmptyString) as [He|_].
    - destruct (str_nonempty n He).
    - rewrite int_str by assumption. reflexivity. }
  match goal with
  | |- context [fetch_loop efetch_parse ?self ?d ?rem 0 ?R'] =>
      destruct (fetch_loop_bounded efetch_parse self d rem 0 R') as (_ & _ & Hy);
      specialize (Hy Hmost); unfold initial_remaining in *; lia
  end.
Qed.

End MainLimit.

Lemma main_limit_honoured_witness :
  typed_max_records Demo.input = EmptyString +:+ Py.str 3 +:+ EmptyString /\
  blank EmptyString /\
  (Py.count_digits (Py.str 3) <= Py.max_str_digits)%nat /\
  (forall R' req,
      (length (fst (snd (Faulty.efetch_parse R' req))) <= Z.to_nat (retmax req))%nat) /\
  Z.of_nat (length (yielded (events (main_fetch Demo.default_delay Demo.esearch_read
                                       Faulty.efetch_parse Demo.input Demo.R0))))
  <= Z.max 0 3.
Proof.
  split; [reflexivity|]. split; [intros c []|].
  split; [vm_compute; lia|].
  split; [exact faulty_efetch_never_exceeds|].
  apply (main_limit_honoured Demo.default_delay Demo.esearch_read Faulty.efetch_parse
           Demo.input Demo.R0 EmptyString EmptyString 3).
  - reflexivity.
  - intros c [].
  - intros c [].
  - vm_compute; lia.
  - exact faulty_efetch_never_exceeds.
Defined.
